(** * kstart: krenew and the portable daemon replacement

    A shallow embedding of [krenew.c] and [portable/daemon.c] and the
    properties of the renewal attempt, the cache duplication, the startup
    validation, the cleanup callback and the daemonizer.

    The operating system and the Kerberos library are outside the
    repository.  They are modelled as explicit state: a descriptor table,
    a file system holding the ticket caches, and a script of injected
    results that decides which calls fail.  Every call is also logged, so
    that statements about the order and the number of calls can be made on
    the log. *)

From Stdlib Require Import ZArith List String Ascii Bool Lia.
From stdpp Require Import base gmap strings list pretty.

Local Open Scope string_scope.
Local Open Scope list_scope.
Local Open Scope Z_scope.

(** ** The replacement [daemon] of portable/daemon.c *)

Module Daemon.

(** The system calls [daemon] makes, with their arguments. *)
Inductive syscall :=
| SysFork
| SysExit (status : Z)
| SysSetsid
| SysChdir (path : string)
| SysOpen (path : string)
| SysIoctlNotty (fd : Z)
| SysDup2 (oldfd newfd : Z)
| SysClose (fd : Z).

(** Process state.  [os_fds] is the descriptor table, [os_script] the
    results the kernel will hand to the coming calls, one per call, 0 once
    the script is used up: a negative entry makes the call fail, and the
    entry of [fork] is its return value. *)
Record os := mk_os {
  os_fds : gmap Z string;
  os_cwd : string;
  os_leader : bool;
  os_errno : Z;
  os_script : list Z;
  os_log : list syscall
}.

Definition STDIN_FILENO : Z := 0.
Definition STDOUT_FILENO : Z := 1.
Definition STDERR_FILENO : Z := 2.

Definition log (c : syscall) (s : os) : os :=
  mk_os (os_fds s) (os_cwd s) (os_leader s) (os_errno s) (os_script s)
        (os_log s ++ [c]).

Definition with_fds (f : gmap Z string) (s : os) : os :=
  mk_os f (os_cwd s) (os_leader s) (os_errno s) (os_script s) (os_log s).

Definition with_errno (e : Z) (s : os) : os :=
  mk_os (os_fds s) (os_cwd s) (os_leader s) e (os_script s) (os_log s).

(** Take the kernel's answer to the next call off the script. *)
Definition answer (s : os) : Z * os :=
  (hd 0 (os_script s),
   mk_os (os_fds s) (os_cwd s) (os_leader s) (os_errno s) (tl (os_script s))
         (os_log s)).

(** The lowest descriptor that is not open, as [open] returns it. *)
Definition lowest_free (fds : gmap Z string) : Z :=
  match List.find (fun n => bool_decide (fds !! Z.of_nat n = None))
                  (seq 0 (S (size fds))) with
  | Some n => Z.of_nat n
  | None => Z.of_nat (size fds)
  end.

Definition sys_fork (s : os) : Z * os :=
  let (r, s) := answer (log SysFork s) in
  if r <? 0 then (-1, with_errno (- r) s) else (r, s).

Definition sys_setsid (s : os) : Z * os :=
  let (r, s) := answer (log SysSetsid s) in
  if r <? 0 then (-1, with_errno (- r) s)
  else (0, mk_os (os_fds s) (os_cwd s) true (os_errno s) (os_script s) (os_log s)).

Definition sys_chdir (path : string) (s : os) : Z * os :=
  let (r, s) := answer (log (SysChdir path) s) in
  if r <? 0 then (-1, with_errno (- r) s)
  else (0, mk_os (os_fds s) path (os_leader s) (os_errno s) (os_script s) (os_log s)).

Definition sys_open (path : string) (s : os) : Z * os :=
  let (r, s) := answer (log (SysOpen path) s) in
  if r <? 0 then (-1, with_errno (- r) s)
  else let fd := lowest_free (os_fds s) in
       (fd, with_fds (<[fd := path]> (os_fds s)) s).

Definition sys_ioctl_notty (fd : Z) (s : os) : Z * os :=
  let (r, s) := answer (log (SysIoctlNotty fd) s) in
  if r <? 0 then (-1, with_errno (- r) s)
  else (0, mk_os (os_fds s) (os_cwd s) true (os_errno s) (os_script s) (os_log s)).

(** [dup2] closes [newfd] if it is open and makes it a copy of [oldfd]; it
    fails on an [oldfd] that is not open. *)
Definition sys_dup2 (oldfd newfd : Z) (s : os) : Z * os :=
  let (r, s) := answer (log (SysDup2 oldfd newfd) s) in
  if r <? 0 then (-1, with_errno (- r) s)
  else match os_fds s !! oldfd with
       | None => (-1, with_errno 9 s)
       | Some f => (newfd, with_fds (<[newfd := f]> (os_fds s)) s)
       end.

Definition sys_close (fd : Z) (s : os) : os :=
  let s := log (SysClose fd) s in
  with_fds (delete fd (os_fds s)) s.

(** How a call of [daemon] ends: it returns to its caller, or the process
    is gone ([_exit] in the parent). *)
Inductive outcome :=
| Returned (r : Z)
| Exited (status : Z).

Section Build.

(** The two configuration macros the function is compiled under. *)
Variable HAVE_SETSID : bool.
Variable TIOCNOTTY_defined : bool.

(** The block between the fork and the chdir: [None] when the function goes
    on, [Some r] when it returns [r] there. *)
Definition detach_tty (s : os) : option Z * os :=
  if HAVE_SETSID then
    let (r, s) := sys_setsid s in
    if r <? 0 then (Some (-1), s) else (None, s)
  else if TIOCNOTTY_defined then
    let (fd, s) := sys_open "/dev/tty" s in
    if 0 <=? fd then
      let (r, s) := sys_ioctl_notty fd s in
      if r <? 0 then
        let status := os_errno s in
        let s := sys_close fd s in
        (Some (-1), with_errno status s)
      else (None, sys_close fd s)
    else (None, s)
  else (None, s).

(** The [if (!noclose)] block. *)
Definition redirect_streams (s : os) : Z * os :=
  let (fd, s) := sys_open "/dev/null" s in
  if fd <? 0 then (-1, s)
  else
    let (r, s) := sys_dup2 fd STDIN_FILENO s in
    if r <? 0 then (-1, s) else
    let (r, s) := sys_dup2 fd STDOUT_FILENO s in
    if r <? 0 then (-1, s) else
    let (r, s) := sys_dup2 fd STDERR_FILENO s in
    if r <? 0 then (-1, s) else
    (0, if 2 <? fd then sys_close fd s else s).

(** Everything before the [if (!noclose)] block: the fork, the detachment
    from the terminal and the chdir.  [Some out] when the call ends there. *)
Definition before_streams (nochdir : Z) (s : os) : option outcome * os :=
  let (status, s) := sys_fork s in
  if status <? 0 then (Some (Returned (-1)), s)
  else if 0 <? status then (Some (Exited 0), log (SysExit 0) s)
  else
    match detach_tty s with
    | (Some r, s) => (Some (Returned r), s)
    | (None, s) =>
        let (r, s) :=
          if nochdir =? 0 then sys_chdir "/" s else (0, s) in
        if r <? 0 then (Some (Returned (-1)), s) else (None, s)
    end.

Definition daemon (nochdir noclose : Z) (s : os) : outcome * os :=
  match before_streams nochdir s with
  | (Some out, s) => (out, s)
  | (None, s) =>
      if noclose =? 0 then
        let (r, s) := redirect_streams s in
        if r <? 0 then (Returned (-1), s) else (Returned 0, s)
      else (Returned 0, s)
  end.

(** Position of the first failing call among the next [n] calls. *)
Fixpoint first_failure (n : nat) (script : list Z) : option nat :=
  match n with
  | O => None
  | S n' =>
      if hd 0 script <? 0 then Some O
      else S <$> first_failure n' (tl script)
  end.

(** The calls of a complete redirection through descriptor [fd]. *)
Definition redirection_calls (fd : Z) : list syscall :=
  [SysOpen "/dev/null"; SysDup2 fd STDIN_FILENO; SysDup2 fd STDOUT_FILENO;
   SysDup2 fd STDERR_FILENO].

End Build.

End Daemon.

(** ** krenew.c *)

Module Krenew.

(** *** Data *)

(** Error codes of the Kerberos library that the code names (krb5.h). *)
Definition KRB5KDC_ERR_KEY_EXP : Z := -1765328361.
Definition KRB5KRB_AP_ERR_TKT_EXPIRED : Z := -1765328352.
Definition KRB5_FCC_NOFILE : Z := -1765328189.
Definition KRB5_CC_NOTFOUND : Z := -1765328243.
Definition SIGHUP : Z := 1.

Definition principal := string.

(** A credential: whose it is and which issue of the ticket it is. *)
Record creds := mk_creds { cr_client : principal; cr_serial : Z }.

(** What a ticket cache holds: its principal and its credentials. *)
Record ccache_data := mk_ccache {
  cc_principal : principal;
  cc_creds : list creds
}.

(** A file: its permission bits and, when it is a ticket cache that has
    been initialized, the cache in it. *)
Record file := mk_file { f_mode : Z; f_cache : option ccache_data }.

(** [struct krenew_private], and [struct config] with the fields that
    krenew.c reads or writes (the structure is declared in internal.h,
    which is not among the sources).  A null pointer is [None].  The two
    callbacks [auth] and [cleanup] are always [renew] and [cleanup] below
    and are left out of the record. *)
Record krenew_private := mk_private { signal_child : bool }.

Record config := mk_config {
  always_renew : bool;
  background : bool;
  childfile : option string;
  ignore_errors : bool;
  cache : option string;
  pidfile : option string;
  do_aklog : bool;
  verbose : bool;
  exit_errors : bool;
  happy_ticket : Z;
  keep_ticket : Z;
  command : option (list string);
  clean_cache : bool;
  child : Z;
  private : krenew_private
}.

Definition set_always_renew (v : bool) (c : config) : config :=
  mk_config v (background c) (childfile c) (ignore_errors c) (cache c)
    (pidfile c) (do_aklog c) (verbose c) (exit_errors c) (happy_ticket c)
    (keep_ticket c) (command c) (clean_cache c) (child c) (private c).

Definition set_background (v : bool) (c : config) : config :=
  mk_config (always_renew c) v (childfile c) (ignore_errors c) (cache c)
    (pidfile c) (do_aklog c) (verbose c) (exit_errors c) (happy_ticket c)
    (keep_ticket c) (command c) (clean_cache c) (child c) (private c).

Definition set_childfile (v : option string) (c : config) : config :=
  mk_config (always_renew c) (background c) v (ignore_errors c) (cache c)
    (pidfile c) (do_aklog c) (verbose c) (exit_errors c) (happy_ticket c)
    (keep_ticket c) (command c) (clean_cache c) (child c) (private c).

Definition set_ignore_errors (v : bool) (c : config) : config :=
  mk_config (always_renew c) (background c) (childfile c) v (cache c)
    (pidfile c) (do_aklog c) (verbose c) (exit_errors c) (happy_ticket c)
    (keep_ticket c) (command c) (clean_cache c) (child c) (private c).

Definition set_cache (v : option string) (c : config) : config :=
  mk_config (always_renew c) (background c) (childfile c) (ignore_errors c)
    v (pidfile c) (do_aklog c) (verbose c) (exit_errors c) (happy_ticket c)
    (keep_ticket c) (command c) (clean_cache c) (child c) (private c).

Definition set_pidfile (v : option string) (c : config) : config :=
  mk_config (always_renew c) (background c) (childfile c) (ignore_errors c)
    (cache c) v (do_aklog c) (verbose c) (exit_errors c) (happy_ticket c)
    (keep_ticket c) (command c) (clean_cache c) (child c) (private c).

Definition set_do_aklog (v : bool) (c : config) : config :=
  mk_config (always_renew c) (background c) (childfile c) (ignore_errors c)
    (cache c) (pidfile c) v (verbose c) (exit_errors c) (happy_ticket c)
    (keep_ticket c) (command c) (clean_cache c) (child c) (private c).

Definition set_verbose (v : bool) (c : config) : config :=
  mk_config (always_renew c) (background c) (childfile c) (ignore_errors c)
    (cache c) (pidfile c) (do_aklog c) v (exit_errors c) (happy_ticket c)
    (keep_ticket c) (command c) (clean_cache c) (child c) (private c).

Definition set_exit_errors (v : bool) (c : config) : config :=
  mk_config (always_renew c) (background c) (childfile c) (ignore_errors c)
    (cache c) (pidfile c) (do_aklog c) (verbose c) v (happy_ticket c)
    (keep_ticket c) (command c) (clean_cache c) (child c) (private c).

Definition set_happy_ticket (v : Z) (c : config) : config :=
  mk_config (always_renew c) (background c) (childfile c) (ignore_errors c)
    (cache c) (pidfile c) (do_aklog c) (verbose c) (exit_errors c) v
    (keep_ticket c) (command c) (clean_cache c) (child c) (private c).

Definition set_keep_ticket (v : Z) (c : config) : config :=
  mk_config (always_renew c) (background c) (childfile c) (ignore_errors c)
    (cache c) (pidfile c) (do_aklog c) (verbose c) (exit_errors c)
    (happy_ticket c) v (command c) (clean_cache c) (child c) (private c).

Definition set_command (v : option (list string)) (c : config) : config :=
  mk_config (always_renew c) (background c) (childfile c) (ignore_errors c)
    (cache c) (pidfile c) (do_aklog c) (verbose c) (exit_errors c)
    (happy_ticket c) (keep_ticket c) v (clean_cache c) (child c)
    (private c).

Definition set_clean_cache (v : bool) (c : config) : config :=
  mk_config (always_renew c) (background c) (childfile c) (ignore_errors c)
    (cache c) (pidfile c) (do_aklog c) (verbose c) (exit_errors c)
    (happy_ticket c) (keep_ticket c) (command c) v (child c) (private c).

Definition set_child (v : Z) (c : config) : config :=
  mk_config (always_renew c) (background c) (childfile c) (ignore_errors c)
    (cache c) (pidfile c) (do_aklog c) (verbose c) (exit_errors c)
    (happy_ticket c) (keep_ticket c) (command c) (clean_cache c) v (private
    c).

Definition set_private (v : krenew_private) (c : config) : config :=
  mk_config (always_renew c) (background c) (childfile c) (ignore_errors c)
    (cache c) (pidfile c) (do_aklog c) (verbose c) (exit_errors c)
    (happy_ticket c) (keep_ticket c) (command c) (clean_cache c) (child c)
    v.


(** The configuration after the two [memset] calls of [main]. *)
Definition config_zero : config :=
  mk_config false false None false None None false false false 0 0 None
            false 0 (mk_private false).

(** Things the Kerberos library hands out and wants back. *)
Inductive resource :=
| RCache (name : string)
| RPrincipal (p : principal)
| RCreds (c : creds)
| RName (s : string).

#[global] Instance creds_eq_dec : EqDecision creds.
Proof. solve_decision. Defined.
#[global] Instance resource_eq_dec : EqDecision resource.
Proof. solve_decision. Defined.

(** Calls into the library and the system, and messages, as logged. *)
Inductive event :=
| EvWarn (msg : string)
| EvWarnKrb5 (code : Z) (msg : string)
| EvNotice (msg : string)
| EvOpenlog
| EvInitContext
| EvCcDefault
| EvCcResolve (name : string)
| EvCcGetPrincipal (cache : string)
| EvCcGetFullName (cache : string)
| EvUnparseName (p : principal)
| EvFreeUnparsedName (name : string)
| EvGetRenewedCreds (user : principal) (cache : string)
| EvCcInitialize (cache : string) (p : principal)
| EvCcStoreCred (cache : string) (c : creds)
| EvCcCopyCache (old new : string)
| EvCcClose (cache : string)
| EvFreePrincipal (p : principal)
| EvFreeCredContents (c : option creds)
| EvMkstemp (template : string)
| EvFchmod (fd : Z) (mode : Z)
| EvSetenv (name value : string)
| EvKill (pid : Z) (sig : Z).

(** The world krenew runs in.  [w_script] holds the results of the coming
    library and system calls, one per call and 0 (success) once used up;
    [w_live] the resources handed out and not yet given back, most recent
    first; [w_bad_release] every release of something that was not live. *)
Record world := mk_world {
  w_files : gmap string file;
  w_fds : gmap Z string;
  w_env : gmap string string;
  w_uid : Z;
  w_suffix : string;
  w_mkstemp_mode : Z;
  w_live : list resource;
  w_bad_release : list resource;
  w_script : list Z;
  w_log : list event
}.

Definition set_files (v : gmap string file) (w : world) : world :=
  mk_world v (w_fds w) (w_env w) (w_uid w) (w_suffix w) (w_mkstemp_mode w)
           (w_live w) (w_bad_release w) (w_script w) (w_log w).

Definition set_fds (v : gmap Z string) (w : world) : world :=
  mk_world (w_files w) v (w_env w) (w_uid w) (w_suffix w) (w_mkstemp_mode w)
           (w_live w) (w_bad_release w) (w_script w) (w_log w).

Definition set_env (v : gmap string string) (w : world) : world :=
  mk_world (w_files w) (w_fds w) v (w_uid w) (w_suffix w) (w_mkstemp_mode w)
           (w_live w) (w_bad_release w) (w_script w) (w_log w).

Definition set_live (v : list resource) (w : world) : world :=
  mk_world (w_files w) (w_fds w) (w_env w) (w_uid w) (w_suffix w)
           (w_mkstemp_mode w) v (w_bad_release w) (w_script w) (w_log w).

Definition set_bad_release (v : list resource) (w : world) : world :=
  mk_world (w_files w) (w_fds w) (w_env w) (w_uid w) (w_suffix w)
           (w_mkstemp_mode w) (w_live w) v (w_script w) (w_log w).

Definition set_script (v : list Z) (w : world) : world :=
  mk_world (w_files w) (w_fds w) (w_env w) (w_uid w) (w_suffix w)
           (w_mkstemp_mode w) (w_live w) (w_bad_release w) v (w_log w).

Definition set_log (v : list event) (w : world) : world :=
  mk_world (w_files w) (w_fds w) (w_env w) (w_uid w) (w_suffix w)
           (w_mkstemp_mode w) (w_live w) (w_bad_release w) (w_script w) v.

(** *** Control: state, and the calls that do not return *)

(** How the process ends when a function does not return: [die], [sysdie]
    and [die_krb5] print a message and exit, [usage] prints the usage
    message and exits with its argument, and [exit_cleanup] hands over to
    the framework's shutdown with the configuration and a status. *)
Inductive stop :=
| Die (msg : string)
| Usage (status : Z)
| ExitCleanup (c : config) (status : Z).

Inductive result (A : Type) :=
| Val (a : A)
| Stop (e : stop).
Arguments Val {A} a.
Arguments Stop {A} e.

Definition M (A : Type) : Type := world -> result A * world.

#[global] Instance M_ret : MRet M := fun A a w => (Val a, w).
#[global] Instance M_bind : MBind M := fun A B f m w =>
  match m w with
  | (Val a, w') => f a w'
  | (Stop e, w') => (Stop e, w')
  end.

Definition halt {A} (e : stop) : M A := fun w => (Stop e, w).
Definition die {A} (msg : string) : M A := halt (Die msg).
Definition sysdie {A} (msg : string) : M A := halt (Die msg).
Definition die_krb5 {A} (code : Z) (msg : string) : M A := halt (Die msg).
Definition usage {A} (status : Z) : M A := halt (Usage status).
Definition exit_cleanup {A} (c : config) (status : Z) : M A :=
  halt (ExitCleanup c status).

(** Modelled from the spec: the status with which [die], [sysdie] and
    [die_krb5] end the process (util/messages.c is not among the sources);
    section 6 gives exit code 1 to any setup failure. *)
Definition die_status : Z := 1.

(** The exit status of a run that stops. *)
Definition exit_status (e : stop) : Z :=
  match e with
  | Die _ => die_status
  | Usage status => status
  | ExitCleanup _ status => status
  end.

Definition emit (e : event) : M unit :=
  fun w => (Val tt, set_log (w_log w ++ [e]) w).

(** Log a call and take its injected result off the script. *)
Definition call (e : event) : M Z :=
  fun w => (Val (hd 0 (w_script w)),
            set_script (tl (w_script w)) (set_log (w_log w ++ [e]) w)).

Definition get {A} (f : world -> A) : M A := fun w => (Val (f w), w).
Definition modify (f : world -> world) : M unit := fun w => (Val tt, f w).

Definition acquire (r : resource) : M unit :=
  modify (fun w => set_live (r :: w_live w) w).

Fixpoint remove_first (r : resource) (l : list resource) : list resource :=
  match l with
  | [] => []
  | x :: l' => if decide (x = r) then l' else x :: remove_first r l'
  end.

Definition release (r : resource) : M unit :=
  modify (fun w =>
    if decide (r ∈ w_live w) then set_live (remove_first r (w_live w)) w
    else set_bad_release (w_bad_release w ++ [r]) w).

Definition warn (msg : string) : M unit := emit (EvWarn msg).
Definition warn_krb5 (code : Z) (msg : string) : M unit :=
  emit (EvWarnKrb5 code msg).
Definition notice (msg : string) : M unit := emit (EvNotice msg).

(** *** The Kerberos library and the system, as krenew calls them

    These functions are not part of the repository.  Each one logs the
    call, fails with the injected code when the script says so and without
    touching anything, and otherwise does what its manual page says on the
    modelled state. *)

Definition KRB5_CC_BADNAME : Z := -1765328245.

(** 0600, owner read and write. *)
Definition mode_0600 : Z := 384.

(** A library call with an output argument gives the output or a nonzero
    code. *)
Inductive krb5_ret (A : Type) :=
| Ok (a : A)
| Err (code : Z).
Arguments Ok {A} a.
Arguments Err {A} code.

(** The file a cache name stands for: the name without its type. *)
Definition residual (name : string) : string :=
  if String.prefix "FILE:" name
  then String.substring 5 (String.length name - 5) name
  else name.

Definition cache_of (w : world) (name : string) : option ccache_data :=
  f ← w_files w !! name; f_cache f.

Definition krb5_init_context : M Z := call EvInitContext.

Definition krb5_cc_resolve (name : option string) : M (krb5_ret string) :=
  code ← call (EvCcResolve (default "" name));
  if negb (code =? 0) then mret (Err code)
  else match name with
       | None => mret (Err KRB5_CC_BADNAME)
       | Some n => acquire (RCache (residual n));; mret (Ok (residual n))
       end.

Definition krb5_cc_default : M (krb5_ret string) :=
  code ← call EvCcDefault;
  if negb (code =? 0) then mret (Err code)
  else
    env ← get w_env;
    uid ← get w_uid;
    let n := residual (default ("/tmp/krb5cc_" +:+ pretty uid)
                               (env !! "KRB5CCNAME")) in
    acquire (RCache n);; mret (Ok n).

Definition krb5_cc_get_full_name (ccache : string) : M (krb5_ret string) :=
  code ← call (EvCcGetFullName ccache);
  if negb (code =? 0) then mret (Err code)
  else mret (Ok ("FILE:" +:+ ccache)).

Definition krb5_cc_get_principal (ccache : string) : M (krb5_ret principal) :=
  code ← call (EvCcGetPrincipal ccache);
  if negb (code =? 0) then mret (Err code)
  else
    d ← get (fun w => cache_of w ccache);
    match d with
    | None => mret (Err KRB5_FCC_NOFILE)
    | Some d =>
        acquire (RPrincipal (cc_principal d));; mret (Ok (cc_principal d))
    end.

Definition krb5_unparse_name (p : principal) : M (krb5_ret string) :=
  code ← call (EvUnparseName p);
  if negb (code =? 0) then mret (Err code)
  else acquire (RName p);; mret (Ok p).

Definition krb5_free_unparsed_name (name : string) : M unit :=
  emit (EvFreeUnparsedName name);; release (RName name).

(** Renewal needs a ticket of [user] in the cache; the renewed credential
    is a new issue for the same client. *)
Definition krb5_get_renewed_creds (user : principal) (ccache : string)
  : M (krb5_ret creds) :=
  code ← call (EvGetRenewedCreds user ccache);
  if negb (code =? 0) then mret (Err code)
  else
    d ← get (fun w => cache_of w ccache);
    match d with
    | None => mret (Err KRB5_FCC_NOFILE)
    | Some d =>
        if existsb (fun c => bool_decide (cr_client c = user)) (cc_creds d)
        then
          serial ← get (fun w => Z.of_nat (length (w_log w)));
          let c := mk_creds user serial in
          acquire (RCreds c);; mret (Ok c)
        else mret (Err KRB5_CC_NOTFOUND)
    end.

(** Initializing a cache empties it and sets its principal. *)
Definition krb5_cc_initialize (ccache : string) (p : principal) : M Z :=
  code ← call (EvCcInitialize ccache p);
  if negb (code =? 0) then mret code
  else
    modify (fun w =>
      let mode := default mode_0600 (f_mode <$> w_files w !! ccache) in
      set_files (<[ccache := mk_file mode (Some (mk_ccache p []))]> (w_files w))
                w);;
    mret 0.

Definition krb5_cc_store_cred (ccache : string) (c : creds) : M Z :=
  code ← call (EvCcStoreCred ccache c);
  if negb (code =? 0) then mret code
  else
    files ← get w_files;
    match files !! ccache with
    | Some (mk_file mode (Some d)) =>
        modify (set_files
          (<[ccache := mk_file mode
                         (Some (mk_ccache (cc_principal d) (cc_creds d ++ [c])))]>
             files));;
        mret 0
    | _ => mret KRB5_FCC_NOFILE
    end.

Definition krb5_cc_copy_cache (old new : string) : M Z :=
  code ← call (EvCcCopyCache old new);
  if negb (code =? 0) then mret code
  else
    files ← get w_files;
    match files !! old ≫= f_cache, files !! new with
    | Some src, Some (mk_file mode (Some d)) =>
        modify (set_files
          (<[new := mk_file mode
                      (Some (mk_ccache (cc_principal d)
                                       (cc_creds d ++ cc_creds src)))]>
             files));;
        mret 0
    | _, _ => mret KRB5_FCC_NOFILE
    end.

Definition krb5_cc_close (ccache : string) : M Z :=
  code ← call (EvCcClose ccache);
  release (RCache ccache);; mret code.

Definition krb5_free_principal (p : principal) : M unit :=
  emit (EvFreePrincipal p);; release (RPrincipal p).

(** Freeing the contents of a zeroed [krb5_creds] does nothing. *)
Definition krb5_free_cred_contents (c : option creds) : M unit :=
  emit (EvFreeCredContents c);;
  match c with
  | Some c => release (RCreds c)
  | None => mret tt
  end.

Definition getuid : M Z := get w_uid.

(** [mkstemp] replaces the six X of the template, creates the file and
    returns a descriptor for it and the name. *)
Definition mkstemp (template : string) : M (Z * string) :=
  r ← call (EvMkstemp template);
  if r <? 0 then mret (-1, template)
  else
    w ← get id;
    let name := String.substring 0 (String.length template - 6) template
                  +:+ w_suffix w in
    match w_files w !! name with
    | Some _ => mret (-1, template)
    | None =>
        let fd := Daemon.lowest_free (w_fds w) in
        modify (fun w =>
          set_fds (<[fd := name]> (w_fds w))
            (set_files (<[name := mk_file (w_mkstemp_mode w) None]> (w_files w))
                       w));;
        mret (fd, name)
    end.

Definition fchmod (fd mode : Z) : M Z :=
  r ← call (EvFchmod fd mode);
  if r <? 0 then mret (-1)
  else
    w ← get id;
    match w_fds w !! fd with
    | None => mret (-1)
    | Some path =>
        modify (set_files
          (alter (fun f => mk_file mode (f_cache f)) path (w_files w)));;
        mret 0
    end.

Definition setenv (name value : string) : M Z :=
  r ← call (EvSetenv name value);
  if negb (r =? 0) then mret (-1)
  else modify (fun w => set_env (<[name := value]> (w_env w)) w);; mret 0.

Definition kill (pid sig : Z) : M unit := emit (EvKill pid sig).

(** [openlog] and the three [message_handlers_*] calls that follow it in
    [main], as one event. *)
Definition openlog : M unit := emit EvOpenlog.

(** *** copy_cache *)

Definition copy_cache (ccache : string) : M (string * string) :=
  uid ← getuid;
  let name := "/tmp/krb5cc_" +:+ pretty uid +:+ "_XXXXXX" in
  '(fd, name) ← mkstemp name;
  if fd <? 0 then sysdie "cannot create ticket cache file" else
  r ← fchmod fd mode_0600;
  if r <? 0 then sysdie "cannot chmod ticket cache file" else
  r ← krb5_cc_resolve (Some name);
  match r with
  | Err code => die_krb5 code "error initializing new ticket cache"
  | Ok new =>
  let old := ccache in
  r ← krb5_cc_get_principal old;
  match r with
  | Err code => die_krb5 code "error getting principal from old cache"
  | Ok princ =>
  code ← krb5_cc_initialize new princ;
  if negb (code =? 0) then die_krb5 code "error initializing new cache" else
  krb5_free_principal princ;;
  code ← krb5_cc_copy_cache old new;
  if negb (code =? 0) then die_krb5 code "error copying credentials" else
  code ← krb5_cc_close old;
  if negb (code =? 0) then die_krb5 code "error closing old ticket cache" else
  mret (name, new)
  end end.

(** *** renew *)

(** The code after the label [done]. *)
Definition renew_done (ccache : option string) (user : option principal)
    (creds_valid : bool) (creds : option creds) (code : Z) : M Z :=
  match ccache with
  | Some c => _ ← krb5_cc_close c; mret tt
  | None => mret tt
  end;;
  match user with
  | Some u => krb5_free_principal u
  | None => mret tt
  end;;
  (if creds_valid then krb5_free_cred_contents creds else mret tt);;
  mret code.

Definition renew (config : config) (status : Z) : M Z :=
  if negb (status =? 0) && negb (status =? KRB5KRB_AP_ERR_TKT_EXPIRED) then
    (if status =? KRB5KDC_ERR_KEY_EXP
     then warn "ticket cannot be renewed for long enough"
     else warn_krb5 status "error reading ticket cache");;
    (if negb (ignore_errors config) then exit_cleanup config 1 else mret tt);;
    mret status
  else
  r ← krb5_cc_resolve (cache config);
  match r with
  | Err code =>
      warn_krb5 code "error opening ticket cache";;
      (if negb (ignore_errors config) then exit_cleanup config 1 else mret tt);;
      mret code
  | Ok ccache =>
  r ← krb5_cc_get_principal ccache;
  match r with
  | Err code =>
      warn_krb5 code "error reading ticket cache";;
      _ ← krb5_cc_close ccache;
      (if negb (ignore_errors config) then exit_cleanup config 1 else mret tt);;
      mret code
  | Ok user =>
  (if verbose config then
     r ← krb5_unparse_name user;
     match r with
     | Err code => warn_krb5 code "error unparsing name"
     | Ok name =>
         notice ("renewing credentials for " +:+ name);;
         krb5_free_unparsed_name name
     end
   else mret tt);;
  r ← krb5_get_renewed_creds user ccache;
  let creds_valid := true in
  match r with
  | Err code =>
      warn_krb5 code "error renewing credentials";;
      renew_done (Some ccache) (Some user) creds_valid None code
  | Ok creds =>
  code ← krb5_cc_initialize ccache user;
  if negb (code =? 0) then
    warn_krb5 code "error reinitializing cache";;
    renew_done (Some ccache) (Some user) creds_valid (Some creds) code
  else
  code ← krb5_cc_store_cred ccache creds;
  if negb (code =? 0) then
    warn_krb5 code "error storing credentials";;
    renew_done (Some ccache) (Some user) creds_valid (Some creds) code
  else
  renew_done (Some ccache) (Some user) creds_valid (Some creds) code
  end end end.

(** The events between reading the principal and asking for the renewal
    are messages about the principal's name. *)
Definition name_event (e : event) : bool :=
  match e with
  | EvUnparseName _ | EvFreeUnparsedName _ | EvNotice _ | EvWarnKrb5 _ _ => true
  | _ => false
  end.

(** *** cleanup *)

Definition cleanup (config : config) (status : Z) : M unit :=
  if negb (child config =? 0) && signal_child (private config)
  then kill (child config) SIGHUP
  else mret tt.

(** *** main *)

Section Main.

(** [convert_number] is declared in internal.h and defined elsewhere. *)
Variable convert_number : string -> Z -> Z.

(** One round of the [getopt] loop: [opt] is what [getopt] returned and
    [optarg] the argument it found for it. *)
Definition parse_option (opt : ascii) (optarg : string) (cfg : config)
  : M config :=
  let case c := Ascii.eqb opt c in
  if case "a"%char then mret (set_always_renew true cfg)
  else if case "b"%char then mret (set_background true cfg)
  else if case "c"%char then mret (set_childfile (Some optarg) cfg)
  else if case "h"%char then usage 0
  else if case "i"%char then mret (set_ignore_errors true cfg)
  else if case "k"%char then mret (set_cache (Some optarg) cfg)
  else if case "p"%char then mret (set_pidfile (Some optarg) cfg)
  else if case "s"%char then mret (set_private (mk_private true) cfg)
  else if case "t"%char then mret (set_do_aklog true cfg)
  else if case "v"%char then mret (set_verbose true cfg)
  else if case "x"%char then mret (set_exit_errors true cfg)
  else if case "H"%char then
    let cfg := set_happy_ticket (convert_number optarg 10) cfg in
    if happy_ticket cfg <=? 0
    then die ("-H limit argument " +:+ optarg +:+ " invalid")
    else mret cfg
  else if case "K"%char then
    let cfg := set_keep_ticket (convert_number optarg 10) cfg in
    if keep_ticket cfg <=? 0
    then die ("-K interval argument " +:+ optarg +:+ " invalid")
    else mret cfg
  else if case "L"%char then openlog;; mret cfg
  else usage 1.

Fixpoint parse_options (opts : list (ascii * string)) (cfg : config)
  : M config :=
  match opts with
  | [] => mret cfg
  | (opt, optarg) :: rest =>
      cfg ← parse_option opt optarg cfg;
      parse_options rest cfg
  end.

(** The block under "Check the arguments for consistency". *)
Definition check_consistency (cfg : config) : M unit :=
  let run_as_daemon :=
    negb (keep_ticket cfg =? 0) || bool_decide (command cfg <> None) in
  if always_renew cfg && negb run_as_daemon then
    die "-a only makes sense with -K or a command to run"
  else if background cfg && negb run_as_daemon then
    die "-b only makes sense with -K or a command to run"
  else if (0 <? happy_ticket cfg) && bool_decide (command cfg <> None) then
    die "-H option cannot be used with a command"
  else if bool_decide (childfile cfg <> None)
          && bool_decide (command cfg = None) then
    die "-c option only makes sense with a command to run"
  else if signal_child (private cfg)
          && bool_decide (command cfg = None) then
    die "-s option only makes sense with a command to run"
  else mret tt.

(** The block under "Establish a Kerberos context and set the ticket
    cache". *)
Definition establish_cache (cfg : config) : M config :=
  code ← krb5_init_context;
  if negb (code =? 0) then die_krb5 code "error initializing Kerberos" else
  r ← match cache cfg with
      | None => krb5_cc_default
      | Some name => krb5_cc_resolve (Some name)
      end;
  match r with
  | Err code => die_krb5 code "error opening default ticket cache"
  | Ok ccache =>
  '(cfg, ccache) ←
    (if bool_decide (command cfg <> None) then
       '(name, new) ← copy_cache ccache;
       mret (set_clean_cache true (set_cache (Some name) cfg), new)
     else mret (cfg, ccache));
  cfg ←
    match cache cfg with
    | None =>
        r ← krb5_cc_get_full_name ccache;
        match r with
        | Err code => die_krb5 code "error getting ticket cache name"
        | Ok name => mret (set_cache (Some name) cfg)
        end
    | Some name =>
        r ← setenv "KRB5CCNAME" name;
        if negb (r =? 0)
        then die "cannot set KRB5CCNAME environment variable"
        else mret cfg
    end;
  _ ← krb5_cc_close ccache;
  mret cfg
  end.

(** [main], up to its last statement: [opts] is the sequence of options
    [getopt] finds and [args] what is left of the command line after them.
    The value is the configuration [run_framework] is called with. *)
Definition main (opts : list (ascii * string)) (args : list string) : M config :=
  cfg ← parse_options opts config_zero;
  let cfg :=
    if (0 <? length args)%nat then set_command (Some args) cfg
    else cfg in
  check_consistency cfg;;
  establish_cache cfg.

End Main.

(** *** The constraints on the configuration

    The configurations that the consistency check of [main] is meant to
    refuse. *)
Definition violation (cfg : config) : Prop :=
  (always_renew cfg = true /\ keep_ticket cfg = 0 /\ command cfg = None) \/
  (background cfg = true /\ keep_ticket cfg = 0 /\ command cfg = None) \/
  (0 < happy_ticket cfg /\ command cfg <> None) \/
  (childfile cfg <> None /\ command cfg = None) \/
  (signal_child (private cfg) = true /\ command cfg = None).

(** [w1] is [w] with nothing added but calls of [openlog] in the log. *)
Definition openlog_only (w w1 : world) : Prop :=
  exists n, w1 = set_log (w_log w ++ repeat EvOpenlog n) w.

(** The command line after the options becomes the command, if there is
    one. *)
Definition with_command (args : list string) (cfg : config) : config :=
  if (0 <? length args)%nat then set_command (Some args) cfg else cfg.

(** The argument of the last option [ch] among [opts], [init] if there is
    none. *)
Fixpoint last_arg (ch : ascii) (opts : list (ascii * string))
    (init : option string) : option string :=
  match opts with
  | [] => init
  | (o, arg) :: rest =>
      last_arg ch rest (if Ascii.eqb o ch then Some arg else init)
  end.

(** The letters the option loop has a case for, -h apart. *)
Definition handled : list ascii := list_ascii_of_string "abcikpstvxHKL".



End Krenew.

(** ** The framework, as far as krenew.c relies on it

    framework.c, with [exit_cleanup] and [run_framework], is not among the
    sources.  What follows is taken from the specification. *)

Module Framework.
Import Krenew.

(** Modelled from the spec: the outcome of one renewal attempt, the
    Renewal Result of section 3 (framework.c is missing). *)
Inductive renewal_result :=
| Success
| TransientFailure (reason : Z)
| PermanentFailure (reason : Z)
| CacheUnavailable (reason : Z).

(** Modelled from the spec: what the scheduler of run_framework (missing)
    does after an attempt, section 4.4. *)
Inductive decision :=
| KeepRunning
| ToCleanup (status : Z).

(** Modelled from the spec: the error policy of the scheduler in
    run_framework (framework.c is missing), section 4.4: a transient
    failure keeps the loop running unless exit-on-error is set, a permanent
    failure or an unavailable cache keeps it running only if ignore-errors
    is set; otherwise the scheduler goes to cleanup with failure status. *)
Definition error_policy (c : config) (r : renewal_result) : decision :=
  match r with
  | Success => KeepRunning
  | TransientFailure _ => if exit_errors c then ToCleanup 1 else KeepRunning
  | PermanentFailure _ | CacheUnavailable _ =>
      if ignore_errors c then KeepRunning else ToCleanup 1
  end.

(** The code with which resolving the cache of [c] or reading its principal
    fails in [w], if one of them does. *)
Definition cache_failure (c : config) (w : world) : option Z :=
  match krb5_cc_resolve (cache c) w with
  | (Val (Err code), _) => Some code
  | (Val (Ok ccache), w1) =>
      match krb5_cc_get_principal ccache w1 with
      | (Val (Err code), _) => Some code
      | _ => None
      end
  | _ => None
  end.

(** Modelled from the spec: the classification of an attempt's status
    (section 4.3, steps 1 to 4), which framework.c or the redesign makes of
    the code [renew] returns: a carried-over status other than "ticket
    expired" is permanent (renewable lifetime used up) or an unavailable
    cache, a failure to resolve the cache or to read its principal is an
    unavailable cache, every other failure is transient. *)
Definition classify (c : config) (prior : Z) (w : world) (code : Z)
  : renewal_result :=
  if code =? 0 then Success
  else if negb (prior =? 0) && negb (prior =? KRB5KRB_AP_ERR_TKT_EXPIRED) then
    if prior =? KRB5KDC_ERR_KEY_EXP then PermanentFailure prior
    else CacheUnavailable prior
  else match cache_failure c w with
       | Some _ => CacheUnavailable code
       | None => TransientFailure code
       end.

(** Modelled from the spec: exit_cleanup of framework.c (missing), the
    CLEANUP and EXIT states of section 4.4: if the cache is a temporary
    duplicate its backing file is deleted, all open cache handles are
    closed, the cleanup callback gets its chance to signal the child, and
    the process ends with the status. *)
Definition run_exit_cleanup (c : config) (status : Z) (w : world) : world * Z :=
  let w :=
    if clean_cache c
    then set_files (delete (residual (default "" (cache c))) (w_files w)) w
    else w in
  let w :=
    set_live (List.filter (fun r => match r with RCache _ => false | _ => true end)
                          (w_live w)) w in
  (snd (cleanup c status w), status).

(** Modelled from the spec: what wakes the scheduler of run_framework
    (missing), section 5: the timer, with the status the framework carries
    into the attempt, or the exit of the child. *)
Inductive sched_event :=
| Wake (prior_status : Z)
| ChildExit (status : Z).

(** Modelled from the spec: the RUNNING state of run_framework (missing),
    section 4.4.  Each wake runs one attempt and applies the error policy;
    the exit of the child ends the loop with the child's status, the child
    record being reset once the child is reaped.  The result is the final
    world and the exit status, [None] while the loop is still waiting. *)
Fixpoint running (c : config) (evs : list sched_event) (w : world)
  : world * option Z :=
  match evs with
  | [] => (w, None)
  | ChildExit st :: rest =>
      match command c with
      | Some _ =>
          let (w', s) := run_exit_cleanup (set_child 0 c) st w in (w', Some s)
      | None => running c rest w
      end
  | Wake prior :: rest =>
      match renew c prior w with
      | (Stop (ExitCleanup c' st), w') =>
          let (w'', s) := run_exit_cleanup c' st w' in (w'', Some s)
      | (Stop _, w') => (w', Some 1)
      | (Val code, w') =>
          match error_policy c (classify c prior w code) with
          | KeepRunning => running c rest w'
          | ToCleanup st =>
              let (w'', s) := run_exit_cleanup c st w' in (w'', Some s)
          end
      end
  end.

(** Modelled from the spec: run_framework (missing), entering RUNNING: the
    command, if there is one, is started and its process ID recorded. *)
Definition run_framework (c : config) (pid : Z) (evs : list sched_event)
    (w : world) : world * option Z :=
  let c := match command c with
           | Some _ => set_child pid c
           | None => c
           end in
  running c evs w.

End Framework.

(** ** Sample inputs *)

Module Sample.
Import Krenew.

Definition alice : principal := "alice@EXAMPLE.ORG".

(** A world with one ticket cache, holding a ticket of [alice]. *)
Definition world_alice : world :=
  mk_world
    {[ "/tmp/krb5cc_1000" :=
         mk_file mode_0600 (Some (mk_ccache alice [mk_creds alice 0])) ]}
    ∅ ∅ 1000 "a1b2c3" mode_0600 [] [] [] [].

(** The same world with the coming calls answered by [script]. *)
Definition world_scripted (script : list Z) : world :=
  set_script script world_alice.

(** krenew -k /tmp/krb5cc_1000 *)
Definition config_alice : config :=
  set_cache (Some "/tmp/krb5cc_1000") config_zero.

(** krenew -K 5 sh: the start-up, and a run in which the timer fires once
    and the command then exits with status 2. *)
Definition started : result config * world :=
  main (fun _ _ => 5) [("K"%char, "5")] ["sh"] world_alice.

Definition started_config : config :=
  match fst started with
  | Val cfg => cfg
  | Stop _ => config_zero
  end.

Definition finished : world * option Z :=
  Framework.run_framework started_config 4242
    [Framework.Wake 0; Framework.ChildExit 2] (snd started).

End Sample.

(* ================================================================== *)
(** * Properties *)

Module DaemonFacts.
Import Daemon.

Lemma lowest_free_nonneg (fds : gmap Z string) : 0 <= lowest_free fds.
Proof. unfold lowest_free. destruct (List.find _ _); lia. Qed.

Lemma lowest_free_free (fds : gmap Z string) : fds !! lowest_free fds = None.
Proof.
  unfold lowest_free.
  destruct (List.find _ _) as [n|] eqn:Hfind.
  - apply find_some in Hfind as [_ Hn]. by apply bool_decide_eq_true in Hn.
  - exfalso.
    assert (Hall : forall n : nat, (n < S (size fds))%nat ->
                                   Z.of_nat n ∈ dom fds).
    { intros n Hn. apply elem_of_dom.
      pose proof (find_none _ _ Hfind n) as Hnone. cbv beta in Hnone.
      rewrite bool_decide_eq_false in Hnone.
      destruct (fds !! Z.of_nat n) eqn:E; [eauto|].
      exfalso. apply Hnone; [|done]. apply in_seq. lia. }
    set (l := Z.of_nat <$> seq 0 (S (size fds))).
    assert (Hsub : (list_to_set l : gset Z) ⊆ dom fds).
    { intros x Hx. apply elem_of_list_to_set in Hx.
      apply list_elem_of_fmap in Hx as (n & -> & Hn).
      apply Hall. apply list_elem_of_In, in_seq in Hn. lia. }
    apply subseteq_size in Hsub.
    rewrite size_list_to_set, size_dom in Hsub.
    + unfold l in Hsub. rewrite length_fmap, length_seq in Hsub. lia.
    + apply NoDup_fmap_2; [intros ?? ?; lia | apply NoDup_seq].
Qed.


(** A shell's child: 0, 1 and 2 on the terminal.  The null device is
    opened as descriptor 3, which is closed again at the end. *)
Example daemon_from_terminal :
  daemon true false 0 0
    (mk_os {[ 0 := "/dev/pts/0"; 1 := "/dev/pts/0"; 2 := "/dev/pts/0" ]}
           "/home/alice" false 0 [] [])
  = (Returned 0,
     mk_os {[ 0 := "/dev/null"; 1 := "/dev/null"; 2 := "/dev/null" ]}
           "/" true 0 []
           [SysFork; SysSetsid; SysChdir "/"; SysOpen "/dev/null";
            SysDup2 3 0; SysDup2 3 1; SysDup2 3 2; SysClose 3]).
Proof. vm_compute. reflexivity. Qed.

(** Started with standard input closed: the null device is opened as
    descriptor 0 and is not closed. *)
Example daemon_without_stdin :
  os_fds (snd (daemon true false 1 0
                 (mk_os {[ 1 := "/dev/pts/0"; 2 := "/dev/pts/0" ]}
                        "/home/alice" false 0 [] [])))
  = {[ 0 := "/dev/null"; 1 := "/dev/null"; 2 := "/dev/null" ]}.
Proof. vm_compute. reflexivity. Qed.

(** The second [dup2] fails: -1, and neither the third [dup2] nor the
    close is attempted. *)
Example daemon_dup2_fails :
  let r := daemon true false 0 0
             (mk_os {[ 0 := "/dev/pts/0"; 1 := "/dev/pts/0"; 2 := "/dev/pts/0" ]}
                    "/home/alice" false 0 [0; 0; 0; 0; 0; -9] []) in
  fst r = Returned (-1) /\
  os_log (snd r) =
    [SysFork; SysSetsid; SysChdir "/"; SysOpen "/dev/null";
     SysDup2 3 0; SysDup2 3 1].
Proof. vm_compute. split; reflexivity. Qed.

(** C9.  With [noclose] zero, a call that gets past the fork, the
    detachment and the chdir opens the null device and redirects the three
    standard streams through that one descriptor, one [dup2] each, in the
    order 0, 1, 2.  If the open or one of the three [dup2] calls fails,
    [daemon] returns -1 and the failing call is the last call it makes.
    Otherwise it returns 0, closes the descriptor it opened unless that is
    one of 0, 1, 2, leaves 0, 1 and 2 on the null device and every other
    descriptor as it was. *)
Theorem daemon_redirects_streams (setsid tiocnotty : bool) (nochdir : Z) (s : os) :
  match before_streams setsid tiocnotty nochdir s with
  | (Some out, s1) => daemon setsid tiocnotty nochdir 0 s = (out, s1)
  | (None, s1) =>
      let fd := lowest_free (os_fds s1) in
      let '(out, s') := daemon setsid tiocnotty nochdir 0 s in
      match first_failure 4 (os_script s1) with
      | Some k =>
          out = Returned (-1) /\
          os_log s' = os_log s1 ++ take (S k) (redirection_calls fd)
      | None =>
          out = Returned 0 /\
          os_log s' = os_log s1 ++ redirection_calls fd
                        ++ (if 2 <? fd then [SysClose fd] else []) /\
          os_fds s' !! STDIN_FILENO = Some "/dev/null" /\
          os_fds s' !! STDOUT_FILENO = Some "/dev/null" /\
          os_fds s' !! STDERR_FILENO = Some "/dev/null" /\
          forall n, ~ (0 <= n <= 2) -> os_fds s' !! n = os_fds s1 !! n
      end
  end.
Proof.
  unfold daemon.
  destruct (before_streams setsid tiocnotty nochdir s) as [[out|] s1]; [done|].
  cbn [Z.eqb]. cbv zeta.
  pose proof (lowest_free_nonneg (os_fds s1)) as Hnn.
  pose proof (lowest_free_free (os_fds s1)) as Hfree.
  destruct s1 as [fds cwd ld en script lg]; cbn [os_fds os_script os_log] in *.
  set (fd := lowest_free fds) in *.
  unfold redirect_streams, sys_open, sys_dup2, answer, log, with_fds, with_errno,
    sys_close, redirection_calls, STDIN_FILENO, STDOUT_FILENO, STDERR_FILENO.
  cbn [os_fds os_script os_log os_cwd os_leader os_errno].
  fold fd.
  assert (Hfd : (fd <? 0) = false) by lia.
  assert (Hkeep : forall (m : gmap Z string) j, m !! fd = Some "/dev/null" ->
                   <[j:="/dev/null"]> m !! fd = Some "/dev/null").
  { intros m j Hm. rewrite lookup_insert. by case_decide. }
  assert (H0 : <[fd:="/dev/null"]> fds !! fd = Some "/dev/null")
    by apply lookup_insert_eq.
  pose proof (Hkeep _ 0 H0) as H1. pose proof (Hkeep _ 1 H1) as H2.
  assert (Hscr : exists a0 a1 a2 a3,
             (hd 0 script, hd 0 (tl script), hd 0 (tl (tl script)),
              hd 0 (tl (tl (tl script)))) = (a0, a1, a2, a3)) by eauto 6.
  destruct Hscr as (a0 & a1 & a2 & a3 & Hscr).
  injection Hscr as E0 E1 E2 E3.
  cbn [hd tl first_failure]. rewrite E0.
  destruct (a0 <? 0) eqn:Ha0.
  { change (-1 <? 0) with true. cbn [os_log]. done. }
  rewrite Hfd. cbn [os_fds os_script os_log os_cwd os_leader os_errno].
  rewrite H0, E1. cbn [fmap option_fmap option_map].
  destruct (a1 <? 0) eqn:Ha1.
  { change (-1 <? 0) with true. cbn [os_log]. by rewrite <- !app_assoc. }
  change (0 <? 0) with false.
  cbn [os_fds os_script os_log os_cwd os_leader os_errno].
  rewrite H1, E2.
  destruct (a2 <? 0) eqn:Ha2.
  { change (-1 <? 0) with true. cbn [os_log]. by rewrite <- !app_assoc. }
  change (1 <? 0) with false.
  cbn [os_fds os_script os_log os_cwd os_leader os_errno].
  rewrite H2, E3.
  destruct (a3 <? 0) eqn:Ha3.
  { change (-1 <? 0) with true. cbn [os_log]. by rewrite <- !app_assoc. }
  change (2 <? 0) with false. change (0 <? 0) with false.
  destruct (2 <? fd) eqn:Hbig; unfold with_fds, log;
    cbn [os_fds os_script os_log os_cwd os_leader os_errno];
    (split; [done|]).
  - split; [by rewrite <- !app_assoc|].
    assert (fd <> 0 /\ fd <> 1 /\ fd <> 2) as (? & ? & ?) by lia.
    cbn [os_fds]. repeat split.
    + by rewrite lookup_delete_ne, lookup_insert_ne, lookup_insert_ne,
        lookup_insert_eq.
    + by rewrite lookup_delete_ne, lookup_insert_ne, lookup_insert_eq.
    + by rewrite lookup_delete_ne, lookup_insert_eq.
    + intros n Hn. rewrite lookup_delete. case_decide as Hd.
      * by subst n.
      * rewrite !lookup_insert_ne by lia. done.
  - split; [by rewrite <- !app_assoc, app_nil_r|].
    cbn [os_fds]. repeat split.
    + by rewrite lookup_insert_ne, lookup_insert_ne, lookup_insert_eq.
    + by rewrite lookup_insert_ne, lookup_insert_eq.
    + by rewrite lookup_insert_eq.
    + intros n Hn. rewrite !lookup_insert_ne by lia. done.
Qed.

(** *** Further properties of [daemon] *)

(** Unfold the system calls on an explicit state and decide the tests on
    constants. *)
Ltac sys :=
  unfold sys_fork, sys_setsid, sys_chdir, sys_open, sys_ioctl_notty, sys_dup2,
    sys_close, answer, log, with_fds, with_errno;
  cbn [os_fds os_cwd os_leader os_errno os_script os_log fst snd];
  change (-1 <? 0) with true; change (0 <? 0) with false;
  change (0 <=? -1) with false.

Ltac split_test :=
  match goal with
  | |- context [if ?b then _ else _] => destruct b eqn:?
  end.

(** The fork decides first.  If it fails, [daemon] returns -1 having made
    no other call; in the parent, the process exits with status 0 having
    made no other call.  Nothing but the log and, on failure, [errno] has
    changed. *)
Theorem daemon_fork_decides (setsid tiocnotty : bool) (nochdir noclose : Z)
    (s : os) :
  hd 0 (os_script s) <> 0 ->
  daemon setsid tiocnotty nochdir noclose s =
    if hd 0 (os_script s) <? 0
    then (Returned (-1),
          mk_os (os_fds s) (os_cwd s) (os_leader s) (- hd 0 (os_script s))
                (tl (os_script s)) (os_log s ++ [SysFork]))
    else (Exited 0,
          mk_os (os_fds s) (os_cwd s) (os_leader s) (os_errno s)
                (tl (os_script s)) (os_log s ++ [SysFork; SysExit 0])).
Proof.
  intros Hne. unfold daemon, before_streams. destruct s as [fds cwd ld en script lg].
  sys. cbn [os_script] in Hne.
  destruct (hd 0 script <? 0) eqn:Hneg; sys; [done|].
  assert (Hpos : (0 <? hd 0 script) = true).
  { apply Z.ltb_ge in Hneg. apply Z.ltb_lt. lia. }
  rewrite Hneg, Hpos. sys. by rewrite <- app_assoc.
Qed.

Lemma daemon_fork_decides_witness :
  daemon true false 0 0 (mk_os ∅ "/home/alice" false 0 [4711] []) =
    (Exited 0, mk_os ∅ "/home/alice" false 0 [] [SysFork; SysExit 0]).
Proof.
  exact (daemon_fork_decides true false 0 0
           (mk_os ∅ "/home/alice" false 0 [4711] []) ltac:(discriminate)).
Defined.

(** With [noclose] set, [daemon] never changes the descriptor table,
    however it ends: in the TIOCNOTTY variant the descriptor opened on
    /dev/tty is closed again, whether the ioctl worked or not. *)
Theorem daemon_keeps_descriptors (setsid tiocnotty : bool) (nochdir noclose : Z)
    (s : os) :
  noclose <> 0 ->
  os_fds (snd (daemon setsid tiocnotty nochdir noclose s)) = os_fds s.
Proof.
  intros Hnc. apply Z.eqb_neq in Hnc.
  unfold daemon, before_streams, detach_tty. rewrite Hnc.
  pose proof (lowest_free_nonneg (os_fds s)) as Hnn.
  pose proof (lowest_free_free (os_fds s)) as Hfree.
  destruct s as [fds cwd ld en script lg]. cbn [os_fds] in *.
  destruct setsid, tiocnotty; repeat (sys; try split_test); sys;
    try reflexivity; try lia.
  all: by apply delete_insert_id.
Qed.

Lemma daemon_keeps_descriptors_witness :
  os_fds (snd (daemon false true 0 1
                 (mk_os {[ 0 := "/dev/pts/0" ]} "/home/alice" false 0
                        [0; 0; -25] [])))
  = {[ 0 := "/dev/pts/0" ]}.
Proof.
  exact (daemon_keeps_descriptors false true 0 1
           (mk_os {[ 0 := "/dev/pts/0" ]} "/home/alice" false 0 [0; 0; -25] [])
           ltac:(discriminate)).
Defined.

Ltac split_test_or_lookup :=
  match goal with
  | |- context [if ?b then _ else _] => destruct b eqn:?
  | |- context [match ?x with Some _ => _ | None => _ end] => destruct x eqn:?
  end.

(** The redirection touches neither the working directory nor the
    session. *)
Lemma redirect_streams_frame (s : os) :
  os_cwd (snd (redirect_streams s)) = os_cwd s /\
  os_leader (snd (redirect_streams s)) = os_leader s.
Proof.
  unfold redirect_streams. destruct s as [fds cwd ld en script lg].
  sys. destruct (hd 0 script <? 0); sys; [done|].
  destruct (lowest_free fds <? 0); sys; [done|].
  destruct (hd 0 (tl script) <? 0); sys; [done|].
  destruct (<[lowest_free fds:="/dev/null"]> fds !! lowest_free fds); sys; [|done].
  destruct (hd 0 (tl (tl script)) <? 0); sys; [done|].
  destruct (_ !! lowest_free fds); sys; [|done].
  destruct (hd 0 (tl (tl (tl script))) <? 0); sys; [done|].
  destruct (_ !! lowest_free fds); sys; [|done].
  by destruct (2 <? lowest_free fds); sys.
Qed.

(** A call that returns 0 has run in the child of the fork; the working
    directory is then the root unless [nochdir] was set, in which case it
    is untouched, and where [setsid] is available the process leads a new
    session. *)
Theorem daemon_success_state (setsid tiocnotty : bool) (nochdir noclose : Z)
    (s s' : os) :
  daemon setsid tiocnotty nochdir noclose s = (Returned 0, s') ->
  hd 0 (os_script s) = 0 /\
  os_cwd s' = (if nochdir =? 0 then "/" else os_cwd s) /\
  (setsid = true -> os_leader s' = true).
Proof.
  intros Hrun.
  assert (Hfst : fst (daemon setsid tiocnotty nochdir noclose s) = Returned 0)
    by (by rewrite Hrun).
  assert (Hsnd : snd (daemon setsid tiocnotty nochdir noclose s) = s')
    by (by rewrite Hrun).
  clear Hrun. subst s'. revert Hfst.
  unfold daemon.
  assert (Hbefore :
    match before_streams setsid tiocnotty nochdir s with
    | (Some out, _) => out <> Returned 0
    | (None, s1) =>
        hd 0 (os_script s) = 0 /\
        os_cwd s1 = (if nochdir =? 0 then "/" else os_cwd s) /\
        (setsid = true -> os_leader s1 = true)
    end).
  { unfold before_streams, detach_tty. destruct s as [fds cwd ld en script lg].
    destruct setsid, tiocnotty; do 12 (sys; try split_test); sys;
      try discriminate; repeat split; try reflexivity; try discriminate;
      repeat match goal with
             | H : (_ <? _) = false |- _ => apply Z.ltb_ge in H
             end; lia. }
  destruct (before_streams setsid tiocnotty nochdir s) as [[out|] s1].
  - cbn [fst]. by intros ->.
  - destruct Hbefore as (Hchild & Hcwd & Hlead).
    destruct (noclose =? 0); cbn [fst snd]; [|done].
    pose proof (redirect_streams_frame s1) as [Hc Hl].
    destruct (redirect_streams s1) as [r s2]. cbn [fst snd] in *.
    destruct (r <? 0); [discriminate|]. intros _. cbn [snd].
    rewrite Hc, Hl. done.
Qed.

Lemma daemon_success_state_witness :
  hd 0 (os_script (mk_os {[ 0 := "/dev/pts/0" ]} "/home/alice" false 0 [] [])) = 0 /\
  os_cwd (snd (daemon true false 0 0
                 (mk_os {[ 0 := "/dev/pts/0" ]} "/home/alice" false 0 [] [])))
    = (if 0 =? 0 then "/" else "/home/alice") /\
  (true = true ->
   os_leader (snd (daemon true false 0 0
                     (mk_os {[ 0 := "/dev/pts/0" ]} "/home/alice" false 0 [] [])))
     = true).
Proof.
  apply (daemon_success_state true false 0 0
           (mk_os {[ 0 := "/dev/pts/0" ]} "/home/alice" false 0 [] [])
           (snd (daemon true false 0 0
                   (mk_os {[ 0 := "/dev/pts/0" ]} "/home/alice" false 0 [] [])))).
  vm_compute. reflexivity.
Defined.

(** When the null device has been opened and one of the three [dup2] calls
    fails, [daemon] returns -1 without closing what it opened: the
    descriptor, which was free before, stays open on the null device. *)
Theorem daemon_failed_dup2_leaves_descriptor (setsid tiocnotty : bool)
    (nochdir : Z) (s s1 : os) (k : nat) :
  before_streams setsid tiocnotty nochdir s = (None, s1) ->
  first_failure 4 (os_script s1) = Some (S k) ->
  fst (daemon setsid tiocnotty nochdir 0 s) = Returned (-1) /\
  os_fds s1 !! lowest_free (os_fds s1) = None /\
  os_fds (snd (daemon setsid tiocnotty nochdir 0 s)) !! lowest_free (os_fds s1)
    = Some "/dev/null".
Proof.
  intros Hbefore Hfail. unfold daemon. rewrite Hbefore. cbn [Z.eqb].
  pose proof (lowest_free_nonneg (os_fds s1)) as Hnn.
  pose proof (lowest_free_free (os_fds s1)) as Hfree.
  destruct s1 as [fds cwd ld en script lg]; cbn [os_fds os_script] in *.
  assert (Hfd : (lowest_free fds <? 0) = false) by lia.
  assert (Hkeep : forall (m : gmap Z string) j,
             m !! lowest_free fds = Some "/dev/null" ->
             <[j:="/dev/null"]> m !! lowest_free fds = Some "/dev/null").
  { intros m j Hm. rewrite lookup_insert. by case_decide. }
  assert (H0 : <[lowest_free fds:="/dev/null"]> fds !! lowest_free fds
               = Some "/dev/null")
    by apply lookup_insert_eq.
  pose proof (Hkeep _ 0 H0) as H1. pose proof (Hkeep _ 1 H1) as H2.
  split; [|split; [done|]]; revert Hfail;
    unfold redirect_streams, STDIN_FILENO, STDOUT_FILENO, STDERR_FILENO;
    cbn [first_failure]; sys;
    (destruct (hd 0 script <? 0); [discriminate|]);
    rewrite Hfd; sys; rewrite H0; sys;
    (destruct (hd 0 (tl script) <? 0); [sys; done|]);
    sys; rewrite H1; sys;
    (destruct (hd 0 (tl (tl script)) <? 0); [sys; done|]);
    sys; rewrite H2; sys;
    (destruct (hd 0 (tl (tl (tl script))) <? 0); [sys; done|]);
    discriminate.
Qed.

Lemma daemon_failed_dup2_leaves_descriptor_witness :
  fst (daemon true false 0 0
         (mk_os {[ 0 := "/dev/pts/0"; 1 := "/dev/pts/0"; 2 := "/dev/pts/0" ]}
                "/home/alice" false 0 [0; 0; 0; 0; 0; -9] []))
    = Returned (-1) /\
  ({[ 0 := "/dev/pts/0"; 1 := "/dev/pts/0"; 2 := "/dev/pts/0" ]} : gmap Z string)
    !! 3 = None /\
  os_fds (snd (daemon true false 0 0
                 (mk_os {[ 0 := "/dev/pts/0"; 1 := "/dev/pts/0"; 2 := "/dev/pts/0" ]}
                        "/home/alice" false 0 [0; 0; 0; 0; 0; -9] [])))
    !! 3 = Some "/dev/null".
Proof.
  exact (daemon_failed_dup2_leaves_descriptor true false 0
           (mk_os {[ 0 := "/dev/pts/0"; 1 := "/dev/pts/0"; 2 := "/dev/pts/0" ]}
                  "/home/alice" false 0 [0; 0; 0; 0; 0; -9] [])
           (mk_os {[ 0 := "/dev/pts/0"; 1 := "/dev/pts/0"; 2 := "/dev/pts/0" ]}
                  "/" true 0 [0; 0; -9] [SysFork; SysSetsid; SysChdir "/"])
           1%nat eq_refl eq_refl).
Defined.

End DaemonFacts.

Module KrenewFacts.
Import Krenew Framework.

#[local] Arguments mbind {_ _ _ _} _ _ /.
#[local] Arguments mret {_ _ _} _ /.
#[local] Arguments set_files _ !_ /.
#[local] Arguments set_fds _ !_ /.
#[local] Arguments set_env _ !_ /.
#[local] Arguments set_live _ !_ /.
#[local] Arguments set_bad_release _ !_ /.
#[local] Arguments set_script _ !_ /.
#[local] Arguments set_log _ !_ /.

(** Symbolic execution of the monadic code: unfold the control structure
    and the modelled calls, never the finite maps. *)
Ltac run1 :=
  unfold mbind, mret, M_bind, M_ret, renew_done;
  cbn [mbind M_bind mret M_ret halt die sysdie die_krb5 usage exit_cleanup
       emit call get modify acquire warn warn_krb5 notice
       krb5_init_context krb5_cc_resolve krb5_cc_default krb5_cc_get_full_name
       krb5_cc_get_principal krb5_unparse_name krb5_free_unparsed_name
       krb5_get_renewed_creds krb5_cc_initialize krb5_cc_store_cred
       krb5_cc_copy_cache krb5_cc_close krb5_free_principal
       krb5_free_cred_contents getuid mkstemp fchmod setenv kill openlog
       renew_done cleanup
       w_files w_fds w_env w_uid w_suffix w_mkstemp_mode w_live w_bad_release
       w_script w_log set_files set_fds set_env set_live set_bad_release
       set_script set_log fst snd hd tl negb andb orb default id
       remove_first].

Ltac run := repeat (progress run1).

Lemma release_live r fi fd en ui sf mm live bad sc lg :
  r ∈ live ->
  release r (mk_world fi fd en ui sf mm live bad sc lg)
  = (Val tt, mk_world fi fd en ui sf mm (remove_first r live) bad sc lg).
Proof. intros H. unfold release, modify. cbn. by rewrite decide_True. Qed.

Lemma release_not_live r fi fd en ui sf mm live bad sc lg :
  r ∉ live ->
  release r (mk_world fi fd en ui sf mm live bad sc lg)
  = (Val tt, mk_world fi fd en ui sf mm live (bad ++ [r]) sc lg).
Proof. intros H. unfold release, modify. cbn. by rewrite decide_False. Qed.

(** The resource is among the first ones of the list. *)
Ltac is_live :=
  solve [ repeat first [ apply list_elem_of_here
                       | apply list_elem_of_further ] ].

(** Split on what the next call, applied to an explicit world, depends
    on. *)
Ltac split_head :=
  match goal with
  | |- context [(if ?b then _ else _) (mk_world _ _ _ _ _ _ _ _ _ _)] =>
      destruct b eqn:?
  | |- context [(match ?x with Some _ => _ | None => _ end)
                  (mk_world _ _ _ _ _ _ _ _ _ _)] =>
      destruct x eqn:?
  | |- context [(match ?x with Ok _ => _ | Err _ => _ end)
                  (mk_world _ _ _ _ _ _ _ _ _ _)] =>
      destruct x eqn:?
  | |- context [(match ?x with mk_file _ _ => _ end)
                  (mk_world _ _ _ _ _ _ _ _ _ _)] =>
      destruct x as [? [?|]] eqn:?
  | |- context [release ?r (mk_world _ _ _ _ _ _ ?live _ _ _)] =>
      first [ rewrite (release_live r) by is_live
            | destruct (decide (r ∈ live));
              [ rewrite (release_live r) by assumption
              | rewrite (release_not_live r) by assumption ] ];
      cbn [remove_first];
      repeat (rewrite decide_False by discriminate);
      rewrite ?decide_True by reflexivity
  end.

(** The renewal service refuses (third call): the attempt returns the
    code, the cache is untouched, and handle, principal and the empty
    credential buffer are given back. *)
Example renew_service_refuses :
  let r := renew Sample.config_alice 0 (Sample.world_scripted [0; 0; 7]) in
  fst r = Val 7 /\
  w_files (snd r) = w_files Sample.world_alice /\
  w_live (snd r) = [] /\
  w_log (snd r) =
    [EvCcResolve "/tmp/krb5cc_1000"; EvCcGetPrincipal "/tmp/krb5cc_1000";
     EvGetRenewedCreds Sample.alice "/tmp/krb5cc_1000";
     EvWarnKrb5 7 "error renewing credentials";
     EvCcClose "/tmp/krb5cc_1000"; EvFreePrincipal Sample.alice;
     EvFreeCredContents None].
Proof. vm_compute. repeat split; reflexivity. Qed.

(** C8.  Whatever branch an attempt takes, and whether it returns or hands
    over to the shutdown, the resources it got from the library are given
    back by then, each once: the live resources are those of before the
    attempt, and no release of something not live has been added. *)
Theorem renew_releases_resources (c : config) (st : Z) (w : world) :
  w_live (snd (renew c st w)) = w_live w /\
  w_bad_release (snd (renew c st w)) = w_bad_release w.
Proof.
  destruct w as [files fds env uid sfx mm live bad script lg].
  unfold renew. run.
  destruct (negb (st =? 0) && negb (st =? KRB5KRB_AP_ERR_TKT_EXPIRED)).
  { destruct (st =? KRB5KDC_ERR_KEY_EXP), (ignore_errors c); run; done. }
  repeat (run; rewrite ?lookup_insert_eq; run; split_head).
  all: run; done.
Qed.

(** C4, as the code has it.  With a carried-over status that is neither 0
    nor "ticket expired", the attempt logs one warning and makes no call at
    all: nothing is taken off the script and nothing but the log changes.
    It returns the status only under ignore-errors; otherwise the attempt
    itself ends the process through [exit_cleanup] with status 1. *)
Theorem renew_prior_failure (c : config) (st : Z) (w : world) :
  st <> 0 -> st <> KRB5KRB_AP_ERR_TKT_EXPIRED ->
  renew c st w =
    (if ignore_errors c then Val st else Stop (ExitCleanup c 1),
     set_log (w_log w ++
                [if st =? KRB5KDC_ERR_KEY_EXP
                 then EvWarn "ticket cannot be renewed for long enough"
                 else EvWarnKrb5 st "error reading ticket cache"]) w).
Proof.
  intros H0 Hexp. unfold renew.
  apply Z.eqb_neq in H0, Hexp. rewrite H0, Hexp. cbn [negb andb].
  destruct (st =? KRB5KDC_ERR_KEY_EXP), (ignore_errors c); reflexivity.
Qed.

Lemma renew_prior_failure_witness :
  renew Sample.config_alice KRB5KDC_ERR_KEY_EXP Sample.world_alice =
    (Stop (ExitCleanup Sample.config_alice 1),
     set_log [EvWarn "ticket cannot be renewed for long enough"]
             Sample.world_alice).
Proof.
  exact (renew_prior_failure Sample.config_alice KRB5KDC_ERR_KEY_EXP
           Sample.world_alice ltac:(discriminate) ltac:(discriminate)).
Defined.

(** C4, as stated, fails: without ignore-errors the attempt does not
    return the carried-over status, it ends the process itself. *)
Lemma prior_failure_ends_process :
  KRB5KDC_ERR_KEY_EXP <> 0 /\
  KRB5KDC_ERR_KEY_EXP <> KRB5KRB_AP_ERR_TKT_EXPIRED /\
  fst (renew Sample.config_alice KRB5KDC_ERR_KEY_EXP Sample.world_alice)
    = Stop (ExitCleanup Sample.config_alice 1) /\
  fst (renew Sample.config_alice KRB5KDC_ERR_KEY_EXP Sample.world_alice)
    <> Val KRB5KDC_ERR_KEY_EXP.
Proof. repeat split; discriminate. Qed.

(** What the renewal service answers when it does: a credential of the user
    it was asked for, issued at the time of the request. *)
Lemma krb5_get_renewed_creds_answer (user : principal) (ccache : string)
    (w : world) (d : ccache_data) :
  negb (hd 0 (w_script w) =? 0) = false ->
  cache_of w ccache = Some d ->
  existsb (fun c => bool_decide (cr_client c = user)) (cc_creds d) = true ->
  fst (krb5_get_renewed_creds user ccache w) =
    Val (Ok (mk_creds user
               (Z.of_nat (length (w_log w ++ [EvGetRenewedCreds user ccache]))))).
Proof.
  intros Hs Hc He. destruct w as [files fds env uid sfx mm live bad script lg].
  cbn [w_script] in Hs. unfold krb5_get_renewed_creds. run.
  rewrite Hs. run.
  replace (cache_of _ ccache) with (Some d)
    by (rewrite <- Hc; reflexivity).
  run. rewrite He. reflexivity.
Qed.

(** Close the conjuncts of a successful attempt: [L] is the log and [S] the
    script at the time of the request for renewed credentials. *)
Ltac answered s d F L S Hs Hp He :=
  eexists s, (cc_principal d),
    (mk_creds (cc_principal d)
       (Z.of_nat (length (L ++ [EvGetRenewedCreds (cc_principal d) (residual s)])))),
    _,
    (mk_world F ∅ ∅ 0 "" 0 [] [] S L);
  split; [reflexivity|];
  split; [by rewrite Hp|];
  split; [reflexivity|];
  split; [cbn [w_log]; rewrite <- !app_assoc; reflexivity|];
  split; [exact (krb5_get_renewed_creds_answer _ _
                   (mk_world F ∅ ∅ 0 "" 0 [] [] S L) d Hs Hp He)|];
  split; [reflexivity|];
  split; [by rewrite lookup_insert_eq|];
  split; [|by rewrite <- !app_assoc];
  reflexivity.

(** C1.  An attempt that returns 0 has read the principal of the cache,
    asked for renewed credentials of that principal, initialized the same
    cache for that principal and stored the renewed credentials, in this
    order.  The credential stored is the one the renewal service answered
    to that request, made with the files as they were before the attempt;
    afterwards the cache holds that principal and exactly this one
    credential, which is that principal's. *)
Theorem renew_success_identity (c : config) (st : Z) (w w' : world) :
  renew c st w = (Val 0, w') ->
  exists name p new pre w0,
    cache c = Some name /\
    cc_principal <$> cache_of w (residual name) = Some p /\
    w_files w0 = w_files w /\
    w_log w0 =
      w_log w ++ [EvCcResolve name; EvCcGetPrincipal (residual name)] ++ pre /\
    fst (krb5_get_renewed_creds p (residual name) w0) = Val (Ok new) /\
    cr_client new = p /\
    cache_of w' (residual name) = Some (mk_ccache p [new]) /\
    forallb name_event pre = true /\
    w_log w' =
      w_log w ++ [EvCcResolve name; EvCcGetPrincipal (residual name)] ++ pre
        ++ [EvGetRenewedCreds p (residual name);
            EvCcInitialize (residual name) p;
            EvCcStoreCred (residual name) new;
            EvCcClose (residual name);
            EvFreePrincipal p;
            EvFreeCredContents (Some new)].
Proof.
  intros Hrun.
  assert (Hfst : fst (renew c st w) = Val 0) by (by rewrite Hrun).
  assert (Hsnd : snd (renew c st w) = w') by (by rewrite Hrun).
  clear Hrun. subst w'. revert Hfst.
  destruct w as [files fds env uid sfx mm live bad script lg].
  unfold renew. run.
  destruct (negb (st =? 0) && negb (st =? KRB5KRB_AP_ERR_TKT_EXPIRED)) eqn:Hprior.
  { destruct (st =? KRB5KDC_ERR_KEY_EXP), (ignore_errors c); run;
      try discriminate; intros [= ->]; discriminate. }
  repeat (run; rewrite ?lookup_insert_eq; run; split_head).
  all: run.
  all: try discriminate.
  all: try (intros [= Hz]; rewrite Hz in *; discriminate).
  all: intros _; unfold cache_of in *; cbn [w_files w_log] in *.
  all: repeat match goal with
         | H1 : ?x = Some ?a, H2 : ?x = Some ?b |- _ =>
             assert (b = a) as -> by congruence; clear H2
         end.
  all: match goal with
       | Hc : cache _ = Some ?s, Hp : ?F !! _ ≫= _ = Some ?d,
         Hs : negb (hd 0 ?S =? 0) = false, He : existsb _ _ = true
         |- context [Z.of_nat (length (?L ++ [EvGetRenewedCreds _ _]))] =>
           solve [answered s d F L S Hs Hp He]
       end.
Qed.

Lemma renew_success_identity_witness :
  exists name p new pre w0,
    cache Sample.config_alice = Some name /\
    cc_principal <$> cache_of Sample.world_alice (residual name) = Some p /\
    w_files w0 = w_files Sample.world_alice /\
    w_log w0 =
      w_log Sample.world_alice
        ++ [EvCcResolve name; EvCcGetPrincipal (residual name)] ++ pre /\
    fst (krb5_get_renewed_creds p (residual name) w0) = Val (Ok new) /\
    cr_client new = p /\
    cache_of (snd (renew Sample.config_alice 0 Sample.world_alice))
             (residual name) = Some (mk_ccache p [new]) /\
    forallb name_event pre = true /\
    w_log (snd (renew Sample.config_alice 0 Sample.world_alice)) =
      w_log Sample.world_alice
        ++ [EvCcResolve name; EvCcGetPrincipal (residual name)] ++ pre
        ++ [EvGetRenewedCreds p (residual name);
            EvCcInitialize (residual name) p;
            EvCcStoreCred (residual name) new;
            EvCcClose (residual name);
            EvFreePrincipal p;
            EvFreeCredContents (Some new)].
Proof.
  apply (renew_success_identity Sample.config_alice 0 Sample.world_alice).
  vm_compute. reflexivity.
Defined.

(** Facts about strings that the name of the temporary cache needs. *)
Lemma append_cons (x : ascii) (a b : string) :
  String x a +:+ b = String x (a +:+ b).
Proof. reflexivity. Qed.

Lemma length_append (a b : string) :
  String.length (a +:+ b) = (String.length a + String.length b)%nat.
Proof.
  induction a as [|x a IH]; [done|].
  rewrite append_cons. simpl. by rewrite IH.
Qed.

Lemma append_assoc (a b c : string) : (a +:+ b) +:+ c = a +:+ (b +:+ c).
Proof.
  induction a as [|x a IH]; [done|].
  by rewrite !append_cons, IH.
Qed.

Lemma substring_append_l (a b : string) :
  String.substring 0 (String.length a) (a +:+ b) = a.
Proof.
  induction a as [|x a IH].
  - by destruct b.
  - rewrite append_cons. simpl. by rewrite IH.
Qed.

Lemma mkstemp_name (uid : Z) (sfx : string) :
  String.substring 0
    (String.length ("/tmp/krb5cc_" +:+ pretty uid +:+ "_XXXXXX") - 6)
    ("/tmp/krb5cc_" +:+ pretty uid +:+ "_XXXXXX") +:+ sfx
  = "/tmp/krb5cc_" +:+ pretty uid +:+ "_" +:+ sfx.
Proof.
  change "_XXXXXX" with ("_" +:+ "XXXXXX").
  rewrite <- (append_assoc (pretty uid)), <- (append_assoc "/tmp/krb5cc_").
  set (a := "/tmp/krb5cc_" +:+ pretty uid +:+ "_").
  replace (String.length (a +:+ "XXXXXX") - 6)%nat with (String.length a)
    by (rewrite length_append; cbn; lia).
  rewrite substring_append_l. unfold a.
  by rewrite !append_assoc.
Qed.

Lemma residual_tmp (s : string) : residual ("/tmp/krb5cc_" +:+ s) = "/tmp/krb5cc_" +:+ s.
Proof.
  unfold residual.
  destruct (String.prefix "FILE:" ("/tmp/krb5cc_" +:+ s)) eqn:E; [|done].
  apply String.prefix_correct in E. discriminate E.
Qed.

(** The temporary file, created empty and chmodded, hides no cache: a
    cache read after that is a cache of before, under another name. *)
Lemma cache_of_after_mkstemp (files : gmap string file) (n k : string)
    (mm mode : Z) (d : ccache_data) :
  alter (fun f => mk_file mode (f_cache f)) n (<[n := mk_file mm None]> files)
    !! k ≫= f_cache = Some d ->
  k <> n /\ files !! k ≫= f_cache = Some d.
Proof.
  intros H. destruct (decide (k = n)) as [->|Hne].
  - by rewrite lookup_alter_eq, lookup_insert_eq in H.
  - by rewrite lookup_alter_ne, lookup_insert_ne in H.
Qed.

(** C5.  A duplication that returns has made, in this order: the temporary
    file with [mkstemp], mode 0600 on it, the new cache on that file,
    initialized for the principal read from the source cache, the copy of
    the source's credentials into it, and the close of the source handle.
    The file did not exist before, now has mode 0600 and holds the
    source's principal and credentials; the name returned is the file's and
    the handle returned is the new cache's. *)
Theorem copy_cache_duplicates (ccache : string) (w w' : world) (name new : string) :
  copy_cache ccache w = (Val (name, new), w') ->
  exists fd src,
    name = "/tmp/krb5cc_" +:+ pretty (w_uid w) +:+ "_" +:+ w_suffix w /\
    new = name /\
    w_files w !! name = None /\
    cache_of w ccache = Some src /\
    w_files w' !! name =
      Some (mk_file mode_0600
              (Some (mk_ccache (cc_principal src) (cc_creds src)))) /\
    w_log w' =
      w_log w ++
        [EvMkstemp ("/tmp/krb5cc_" +:+ pretty (w_uid w) +:+ "_XXXXXX");
         EvFchmod fd mode_0600;
         EvCcResolve name;
         EvCcGetPrincipal ccache;
         EvCcInitialize new (cc_principal src);
         EvFreePrincipal (cc_principal src);
         EvCcCopyCache ccache new;
         EvCcClose ccache].
Proof.
  intros Hrun.
  assert (Hfst : fst (copy_cache ccache w) = Val (name, new)) by (by rewrite Hrun).
  assert (Hsnd : snd (copy_cache ccache w) = w') by (by rewrite Hrun).
  clear Hrun. subst w'. revert Hfst.
  destruct w as [files fds env uid sfx mm live bad script lg].
  unfold copy_cache.
  repeat (run; rewrite ?mkstemp_name, ?residual_tmp, ?lookup_insert_eq; run;
          split_head).
  all: run.
  all: try discriminate.
  all: intros [= <- <-].
  all: unfold cache_of in *; cbn [w_files mbind option_bind] in *.
  all: repeat match goal with
         | H : option_bind _ _ _ (alter _ _ _ !! _) = Some _ |- _ =>
             apply cache_of_after_mkstemp in H as [? ?]
         | H : option_bind _ _ _ (<[_ := _]> _ !! _) = Some _ |- _ =>
             rewrite lookup_insert_ne in H by done;
             apply cache_of_after_mkstemp in H as [? ?]
         end.
  all: match goal with
       | H1 : ?m = Some ?c, H2 : ?m = Some ?c0 |- _ =>
           assert (c0 = c) as -> by congruence
       end.
  all: eexists _, _.
  all: split; [reflexivity|].
  all: split; [reflexivity|].
  all: split; [assumption|].
  all: split; [eassumption|].
  all: split; [|by rewrite <- !app_assoc].
  all: by rewrite lookup_insert_eq, lookup_alter_eq, lookup_insert_eq.
Qed.

Lemma copy_cache_duplicates_witness :
  exists fd src,
    "/tmp/krb5cc_1000_a1b2c3" =
      "/tmp/krb5cc_" +:+ pretty (w_uid Sample.world_alice) +:+ "_"
        +:+ w_suffix Sample.world_alice /\
    "/tmp/krb5cc_1000_a1b2c3" = "/tmp/krb5cc_1000_a1b2c3" /\
    w_files Sample.world_alice !! "/tmp/krb5cc_1000_a1b2c3" = None /\
    cache_of Sample.world_alice "/tmp/krb5cc_1000" = Some src /\
    w_files (snd (copy_cache "/tmp/krb5cc_1000" Sample.world_alice))
      !! "/tmp/krb5cc_1000_a1b2c3" =
      Some (mk_file mode_0600
              (Some (mk_ccache (cc_principal src) (cc_creds src)))) /\
    w_log (snd (copy_cache "/tmp/krb5cc_1000" Sample.world_alice)) =
      w_log Sample.world_alice ++
        [EvMkstemp ("/tmp/krb5cc_" +:+ pretty (w_uid Sample.world_alice)
                      +:+ "_XXXXXX");
         EvFchmod fd mode_0600;
         EvCcResolve "/tmp/krb5cc_1000_a1b2c3";
         EvCcGetPrincipal "/tmp/krb5cc_1000";
         EvCcInitialize "/tmp/krb5cc_1000_a1b2c3" (cc_principal src);
         EvFreePrincipal (cc_principal src);
         EvCcCopyCache "/tmp/krb5cc_1000" "/tmp/krb5cc_1000_a1b2c3";
         EvCcClose "/tmp/krb5cc_1000"].
Proof.
  apply (copy_cache_duplicates "/tmp/krb5cc_1000" Sample.world_alice).
  vm_compute. reflexivity.
Defined.

Ltac pick_disjunct :=
  first [ solve [repeat split; first [done | lia | congruence]]
        | solve [left; pick_disjunct]
        | solve [right; pick_disjunct] ].

(** The consistency check changes nothing and refuses exactly the
    configurations of [violation]. *)
Lemma check_consistency_spec (cfg : config) (w : world) :
  (violation cfg /\ exists msg, check_consistency cfg w = (Stop (Die msg), w)) \/
  (~ violation cfg /\ check_consistency cfg w = (Val tt, w)).
Proof.
  unfold check_consistency, violation.
  destruct (always_renew cfg), (background cfg), (signal_child (private cfg)),
    (command cfg) as [cmd|], (childfile cfg) as [cf|];
    destruct (keep_ticket cfg =? 0) eqn:Ek;
    destruct (0 <? happy_ticket cfg) eqn:Eh;
    cbn [negb orb andb]; rewrite ?bool_decide_eq_true_2 by done;
    rewrite ?bool_decide_eq_false_2 by (intros ?; done);
    cbn [negb orb andb];
    (apply Z.eqb_eq in Ek || apply Z.eqb_neq in Ek);
    (apply Z.ltb_lt in Eh || apply Z.ltb_ge in Eh).
  all: first
         [ right; split; [|reflexivity]; intuition (congruence || lia)
         | left; split; [|by eexists]; pick_disjunct ].
Qed.

(** *** Option parsing *)

Lemma openlog_only_refl (w : world) : openlog_only w w.
Proof. exists 0%nat. destruct w. cbn. by rewrite app_nil_r. Qed.

Lemma openlog_only_trans (w1 w2 w3 : world) :
  openlog_only w1 w2 -> openlog_only w2 w3 -> openlog_only w1 w3.
Proof.
  intros [n ->] [m ->]. exists (n + m)%nat. destruct w1. cbn.
  by rewrite repeat_app, app_assoc.
Qed.

(** One round of the option loop: what it may do to the world and to the
    two numeric limits. *)
Lemma parse_option_spec conv (o : ascii) (arg : string) (cfg : config)
    (w : world) (r : result config) (w1 : world) :
  parse_option conv o arg cfg w = (r, w1) ->
  openlog_only w w1 /\
  match r with
  | Val cfg1 =>
      (if Ascii.eqb o "K" then keep_ticket cfg1 = conv arg 10 /\ 0 < conv arg 10
       else keep_ticket cfg1 = keep_ticket cfg) /\
      (if Ascii.eqb o "H" then happy_ticket cfg1 = conv arg 10 /\ 0 < conv arg 10
       else happy_ticket cfg1 = happy_ticket cfg)
  | Stop e =>
      if Ascii.eqb o "K" || Ascii.eqb o "H"
      then conv arg 10 <= 0 /\ exists msg, e = Die msg
      else exists status, e = Usage status
  end.
Proof.
  unfold parse_option.
  repeat match goal with
         | |- context [Ascii.eqb o ?ch] =>
             lazymatch goal with
             | H : Ascii.eqb o ch = _ |- _ => fail
             | _ => idtac
             end;
             destruct (Ascii.eqb o ch) eqn:?;
             [ match goal with
               | H : Ascii.eqb o ch = true |- _ =>
                   apply Ascii.eqb_eq in H; subst o
               end
             | ]
         end;
    cbn [Ascii.eqb Bool.eqb orb];
    try match goal with
        | |- context [if ?b then die _ else _] => destruct b eqn:Hlim
        end;
    intros [= <- <-];
    (split;
     [ first [ apply openlog_only_refl
             | exists 1%nat; by destruct w ]
     | ]);
    cbn [keep_ticket happy_ticket set_always_renew set_background set_childfile
         set_ignore_errors set_cache set_pidfile set_private set_do_aklog
         set_verbose set_exit_errors set_happy_ticket set_keep_ticket] in *;
    rewrite ?Heqb, ?Heqb0 in *.
  all: try (split; [reflexivity || lia | reflexivity || lia]).
  all: try (by eexists).
  all: try (split; [lia | by eexists]).
  all: try (split; [done | split; [done | lia]]).
  all: try (split; [split; [done | lia] | done]).
Qed.

Lemma parse_options_cons conv o arg rest cfg w :
  parse_options conv ((o, arg) :: rest) cfg w =
    match parse_option conv o arg cfg w with
    | (Val cfg1, w1) => parse_options conv rest cfg1 w1
    | (Stop e, w1) => (Stop e, w1)
    end.
Proof. reflexivity. Qed.

Lemma parse_options_app conv pre rest cfg w :
  parse_options conv (pre ++ rest) cfg w =
    match parse_options conv pre cfg w with
    | (Val cfg1, w1) => parse_options conv rest cfg1 w1
    | (Stop e, w1) => (Stop e, w1)
    end.
Proof.
  revert cfg w. induction pre as [|[o arg] pre IH]; intros cfg w; [done|].
  rewrite <- app_comm_cons, !parse_options_cons.
  destruct (parse_option conv o arg cfg w) as [[cfg1|e] w1]; [apply IH|done].
Qed.

Lemma parse_options_frame conv opts cfg w r w1 :
  parse_options conv opts cfg w = (r, w1) -> openlog_only w w1.
Proof.
  revert cfg w. induction opts as [|[o arg] opts IH]; intros cfg w.
  - intros [= <- <-]. apply openlog_only_refl.
  - rewrite parse_options_cons.
    destruct (parse_option conv o arg cfg w) as [[cfg1|e] w2] eqn:Hstep;
      apply parse_option_spec in Hstep as [Hw _].
    + intros H. eapply openlog_only_trans; [exact Hw | eapply IH, H].
    + by intros [= <- <-].
Qed.

(** The limits that come out of a successful parse are those that went in,
    unless an option set them, and then they are positive. *)
Lemma limit_step (o ch : ascii) (rest : list ascii) (v0 v1 v2 c : Z) :
  (if Ascii.eqb o ch then v1 = c /\ 0 < c else v1 = v0) ->
  (if bool_decide (ch ∈ rest) then 0 < v2 else v2 = v1) ->
  if bool_decide (ch ∈ o :: rest) then 0 < v2 else v2 = v0.
Proof.
  intros Hstep Hrest.
  destruct (Ascii.eqb o ch) eqn:E.
  - apply Ascii.eqb_eq in E as ->.
    rewrite bool_decide_eq_true_2 by (apply elem_of_cons; by left).
    destruct (bool_decide (ch ∈ rest)); lia.
  - apply Ascii.eqb_neq in E.
    destruct (bool_decide (ch ∈ rest)) eqn:D.
    + apply bool_decide_eq_true in D.
      by rewrite bool_decide_eq_true_2 by (apply elem_of_cons; by right).
    + apply bool_decide_eq_false in D.
      rewrite bool_decide_eq_false_2; [congruence|].
      intros [?|?]%elem_of_cons; congruence.
Qed.

Lemma parse_options_limits conv opts cfg w cfg1 w1 :
  parse_options conv opts cfg w = (Val cfg1, w1) ->
  (if bool_decide ("K"%char ∈ opts.*1) then 0 < keep_ticket cfg1
   else keep_ticket cfg1 = keep_ticket cfg) /\
  (if bool_decide ("H"%char ∈ opts.*1) then 0 < happy_ticket cfg1
   else happy_ticket cfg1 = happy_ticket cfg).
Proof.
  revert cfg w. induction opts as [|[o arg] opts IH]; intros cfg w.
  - by intros [= <- <-].
  - rewrite parse_options_cons.
    destruct (parse_option conv o arg cfg w) as [[cfg2|e] w2] eqn:Hstep; [|done].
    apply parse_option_spec in Hstep as [_ [HK HH]].
    intros Hrest. apply IH in Hrest as [IHK IHH]. cbn [fmap list_fmap fst].
    split; eapply limit_step; eassumption.
Qed.

(** An option -H or -K whose argument is not positive stops the parse,
    wherever it stands among the options. *)
Lemma parse_options_bad conv opts cfg w o arg :
  (o, arg) ∈ opts -> o = "H"%char \/ o = "K"%char -> conv arg 10 <= 0 ->
  exists e w1, parse_options conv opts cfg w = (Stop e, w1).
Proof.
  intros Hin Ho Hbad. revert cfg w.
  induction opts as [|[o' arg'] opts IH]; intros cfg w; [by apply elem_of_nil in Hin|].
  rewrite parse_options_cons.
  destruct (parse_option conv o' arg' cfg w) as [[cfg2|e] w2] eqn:Hstep;
    [|by eexists _, _].
  apply elem_of_cons in Hin as [[= <- <-]|Hin]; [|by apply IH].
  apply parse_option_spec in Hstep as [_ [HK HH]].
  destruct Ho as [-> | ->]; cbn in HK, HH; lia.
Qed.

Lemma main_after_parse conv opts args w :
  main conv opts args w =
    match parse_options conv opts config_zero w with
    | (Val cfg, w1) =>
        match check_consistency (with_command args cfg) w1 with
        | (Val _, w2) => establish_cache (with_command args cfg) w2
        | (Stop e, w2) => (Stop e, w2)
        end
    | (Stop e, w1) => (Stop e, w1)
    end.
Proof.
  unfold main, mbind, M_bind, with_command.
  destruct (parse_options conv opts config_zero w) as [[cfg|e] w1]; [|done].
  by destruct (check_consistency _ w1) as [[[]|e] w2].
Qed.

(** C6, as the code has it.  After the options are parsed, [main] stops at
    the consistency check exactly when the configuration violates one of:
    always-renew or background without an interval and without a command;
    a happy-ticket limit together with a command; a child-PID file or
    signal-child without a command.  It then stops through [die], which
    exits with a nonzero status, and nothing has been set up: the world is
    as the option loop left it, which only ever calls [openlog].  Any other
    configuration goes on to set up the Kerberos context and the cache. *)
Theorem startup_validation conv (opts : list (ascii * string))
    (args : list string) (w w1 : world) (cfg : config) :
  parse_options conv opts config_zero w = (Val cfg, w1) ->
  (violation (with_command args cfg) /\
   openlog_only w w1 /\
   exists msg, main conv opts args w = (Stop (Die msg), w1) /\
               exit_status (Die msg) <> 0) \/
  (~ violation (with_command args cfg) /\
   main conv opts args w = establish_cache (with_command args cfg) w1).
Proof.
  intros Hparse. rewrite main_after_parse, Hparse.
  destruct (check_consistency_spec (with_command args cfg) w1)
    as [[Hv [msg Hc]]|[Hv Hc]]; rewrite Hc.
  - left. split; [done|]. split; [by eapply parse_options_frame|].
    by exists msg.
  - by right.
Qed.

Lemma startup_validation_witness :
  (violation (with_command [] (set_always_renew true config_zero)) /\
   openlog_only Sample.world_alice Sample.world_alice /\
   exists msg,
     main (fun _ _ => 0) [("a"%char, "")] [] Sample.world_alice
       = (Stop (Die msg), Sample.world_alice) /\
     exit_status (Die msg) <> 0) \/
  (~ violation (with_command [] (set_always_renew true config_zero)) /\
   main (fun _ _ => 0) [("a"%char, "")] [] Sample.world_alice
     = establish_cache (with_command [] (set_always_renew true config_zero))
                       Sample.world_alice).
Proof.
  apply (startup_validation (fun _ _ => 0) [("a"%char, "")] []
           Sample.world_alice Sample.world_alice
           (set_always_renew true config_zero)).
  reflexivity.
Defined.

(** C6, as stated, fails: a happy-ticket limit with no interval and no
    command is not a configuration error.  [krenew -H 10] passes the
    consistency check and [main] goes on to open the cache. *)
Lemma happy_ticket_alone_accepted :
  0 < happy_ticket (set_happy_ticket 10 config_zero) /\
  keep_ticket (set_happy_ticket 10 config_zero) = 0 /\
  command (set_happy_ticket 10 config_zero) = None /\
  parse_options (fun _ _ => 10) [("H"%char, "10")] config_zero
                Sample.world_alice
    = (Val (set_happy_ticket 10 config_zero), Sample.world_alice) /\
  check_consistency (set_happy_ticket 10 config_zero) Sample.world_alice
    = (Val tt, Sample.world_alice) /\
  fst (main (fun _ _ => 10) [("H"%char, "10")] [] Sample.world_alice)
    = Val (set_cache (Some "FILE:/tmp/krb5cc_1000")
                     (set_happy_ticket 10 config_zero)).
Proof. repeat split; try done; vm_compute; reflexivity. Qed.

(** C10.  If some option -H or -K has an argument that converts to a
    number not above 0, [main] ends while parsing the options: no call but
    [openlog] has been made by then, so no Kerberos context exists.  When
    the option loop reaches such an option it ends with [die], a nonzero
    status.  And a parse that succeeds leaves an interval of 0 only if
    there was no -K at all: -K 0 cannot be asked for. *)
Theorem nonpositive_limit_rejected conv (opts : list (ascii * string))
    (args : list string) (w : world) (o : ascii) (arg : string) :
  (o, arg) ∈ opts ->
  o = "H"%char \/ o = "K"%char ->
  conv arg 10 <= 0 ->
  (exists e w1, main conv opts args w = (Stop e, w1) /\ openlog_only w w1) /\
  (forall pre rest cfg w1,
     opts = pre ++ (o, arg) :: rest ->
     parse_options conv pre config_zero w = (Val cfg, w1) ->
     exists msg, main conv opts args w = (Stop (Die msg), w1) /\
                 exit_status (Die msg) <> 0) /\
  (forall opts' : list (ascii * string),
     match parse_options conv opts' config_zero w with
     | (Val cfg, _) =>
         if bool_decide ("K"%char ∈ opts'.*1) then 0 < keep_ticket cfg
         else keep_ticket cfg = 0
     | (Stop _, _) => True
     end).
Proof.
  intros Hin Ho Hbad. split; [|split].
  - destruct (parse_options_bad conv opts config_zero w o arg Hin Ho Hbad)
      as (e & w1 & Hstop).
    exists e, w1. rewrite main_after_parse, Hstop.
    split; [done | by eapply parse_options_frame].
  - intros pre rest cfg w1 -> Hpre.
    rewrite main_after_parse, parse_options_app, Hpre, parse_options_cons.
    destruct (parse_option conv o arg cfg w1) as [[cfg2|e] w2] eqn:Hstep.
    + apply parse_option_spec in Hstep as [_ [HK HH]].
      destruct Ho as [-> | ->]; cbn in HK, HH; lia.
    + pose proof Hstep as Hsame.
      apply parse_option_spec in Hstep as [_ Hdie].
      assert (Hor : Ascii.eqb o "K" || Ascii.eqb o "H" = true)
        by (destruct Ho as [-> | ->]; reflexivity).
      rewrite Hor in Hdie. destruct Hdie as [_ [msg ->]].
      assert (w2 = w1) as ->.
      { revert Hsame. unfold parse_option.
        destruct Ho as [-> | ->]; cbn [Ascii.eqb Bool.eqb];
          destruct (_ <=? 0); by intros [= <-]. }
      by exists msg.
  - intros opts'.
    destruct (parse_options conv opts' config_zero w) as [[cfg|e] w1] eqn:Hp;
      [|done].
    by apply parse_options_limits in Hp as [HK _].
Qed.

Lemma nonpositive_limit_rejected_witness :
  exists e w1,
    main (fun _ _ => 0) [("K"%char, "0")] [] Sample.world_alice = (Stop e, w1) /\
    openlog_only Sample.world_alice w1.
Proof.
  apply (nonpositive_limit_rejected (fun _ _ => 0) [("K"%char, "0")] []
           Sample.world_alice "K"%char "0").
  - apply list_elem_of_singleton. reflexivity.
  - right. reflexivity.
  - simpl. lia.
Defined.

(** *** The attempt and the framework *)

(** An attempt never dies and never prints the usage: if it does not
    return, it has called [exit_cleanup] with its own configuration and
    status 1. *)
Lemma renew_stops (c : config) (st : Z) (w : world) :
  match fst (renew c st w) with
  | Stop e => e = ExitCleanup c 1
  | Val _ => True
  end.
Proof.
  destruct w as [files fds env uid sfx mm live bad script lg].
  unfold renew. run.
  destruct (negb (st =? 0) && negb (st =? KRB5KRB_AP_ERR_TKT_EXPIRED)).
  { destruct (st =? KRB5KDC_ERR_KEY_EXP), (ignore_errors c); run; done. }
  repeat (run; rewrite ?lookup_insert_eq; run; split_head).
  all: run; done.
Qed.

(** When the cache cannot be resolved or has no principal, the attempt
    returns the library's code under ignore-errors and otherwise calls
    [exit_cleanup] with status 1. *)
Lemma renew_cache_failure (c : config) (st : Z) (w : world) (code : Z) :
  st = 0 \/ st = KRB5KRB_AP_ERR_TKT_EXPIRED ->
  cache_failure c w = Some code ->
  code <> 0 /\
  fst (renew c st w) =
    if ignore_errors c then Val code else Stop (ExitCleanup c 1).
Proof.
  intros Hst.
  assert (Hprior : negb (st =? 0) && negb (st =? KRB5KRB_AP_ERR_TKT_EXPIRED)
                   = false) by (destruct Hst as [-> | ->]; reflexivity).
  unfold renew, cache_failure. rewrite Hprior.
  destruct w as [files fds env uid sfx mm live bad script lg].
  repeat (run; split_head).
  all: run; try discriminate.
  all: intros [= <-].
  all: destruct (ignore_errors c); try discriminate.
  all: (split; [|reflexivity]).
  all: first [ discriminate | by intros Hz; rewrite Hz in * ].
Qed.

(** C2.  An attempt that gets as far as the cache and finds that it cannot
    be resolved or has no principal fails with a nonzero code.  Without
    ignore-errors it calls [exit_cleanup] with status 1 and the run ends
    with status 1; with ignore-errors it returns the code, the policy for
    an unavailable cache keeps the loop running, and the loop goes on with
    the next event. *)
Theorem renew_cache_unavailable (c : config) (st : Z) (w : world) (code : Z)
    (rest : list sched_event) :
  st = 0 \/ st = KRB5KRB_AP_ERR_TKT_EXPIRED ->
  cache_failure c w = Some code ->
  code <> 0 /\
  if ignore_errors c then
    fst (renew c st w) = Val code /\
    error_policy c (classify c st w code) = KeepRunning /\
    running c (Wake st :: rest) w = running c rest (snd (renew c st w))
  else
    fst (renew c st w) = Stop (ExitCleanup c 1) /\
    running c (Wake st :: rest) w =
      (fst (run_exit_cleanup c 1 (snd (renew c st w))), Some 1).
Proof.
  intros Hst Hfail.
  destruct (renew_cache_failure c st w code Hst Hfail) as [Hcode Hrenew].
  split; [done|].
  assert (Hclass : classify c st w code = CacheUnavailable code).
  { unfold classify. rewrite Hfail.
    apply Z.eqb_neq in Hcode. rewrite Hcode.
    by destruct Hst as [-> | ->]. }
  cbn [running]. rewrite Hclass.
  destruct (renew c st w) as [r w'] eqn:Hrun. cbn [fst snd] in *. subst r.
  destruct (ignore_errors c) eqn:Hign.
  - rewrite Hclass. cbn [error_policy]. by rewrite Hign.
  - done.
Qed.

Lemma renew_cache_unavailable_witness :
  KRB5_FCC_NOFILE <> 0 /\
  fst (renew (set_cache (Some "/nonexistent") config_zero) 0 Sample.world_alice)
    = Stop (ExitCleanup (set_cache (Some "/nonexistent") config_zero) 1) /\
  running (set_cache (Some "/nonexistent") config_zero) [Wake 0]
          Sample.world_alice =
    (fst (run_exit_cleanup (set_cache (Some "/nonexistent") config_zero) 1
            (snd (renew (set_cache (Some "/nonexistent") config_zero) 0
                        Sample.world_alice))),
     Some 1).
Proof.
  apply (renew_cache_unavailable (set_cache (Some "/nonexistent") config_zero)
           0 Sample.world_alice KRB5_FCC_NOFILE []).
  - left. reflexivity.
  - vm_compute. reflexivity.
Defined.

(** *** How a run ends and the signal for the child *)






(** *** The temporary cache *)

Lemma cleanup_files (c : config) (st : Z) (w : world) :
  w_files (snd (cleanup c st w)) = w_files w.
Proof.
  unfold cleanup.
  destruct (negb (child c =? 0) && signal_child (private c)); [|done].
  by destruct w.
Qed.

(** The shutdown removes the backing file of a temporary cache and ends
    with the status it was given. *)
Lemma run_exit_cleanup_removes (c : config) (st : Z) (w : world) (name : string) :
  clean_cache c = true -> cache c = Some name ->
  w_files (fst (run_exit_cleanup c st w)) !! residual name = None /\
  snd (run_exit_cleanup c st w) = st.
Proof.
  intros Hclean Hcache. unfold run_exit_cleanup. rewrite Hclean, Hcache.
  cbn [fst snd default]. split; [|done].
  rewrite cleanup_files. destruct w. cbn. apply lookup_delete_eq.
Qed.

(** Every way out of the loop goes through the shutdown. *)
Lemma running_exit_removes (c : config) (evs : list sched_event) (w w2 : world)
    (status : Z) (name : string) :
  clean_cache c = true -> cache c = Some name ->
  running c evs w = (w2, Some status) ->
  w_files w2 !! residual name = None.
Proof.
  intros Hclean Hcache. revert w.
  induction evs as [|[prior|st] evs IH]; intros w; cbn [running].
  - done.
  - pose proof (renew_stops c prior w) as Hstop.
    destruct (renew c prior w) as [[code|e] w'] eqn:Hrun; cbn [fst] in Hstop.
    + destruct (error_policy c (classify c prior w code)) as [|st'].
      * apply IH.
      * pose proof (run_exit_cleanup_removes c st' w' name Hclean Hcache) as [Hrm _].
        destruct (run_exit_cleanup c st' w') as [w'' s]. by intros [= <- _].
    + subst e.
      pose proof (run_exit_cleanup_removes c 1 w' name Hclean Hcache) as [Hrm _].
      destruct (run_exit_cleanup c 1 w') as [w'' s]. by intros [= <- _].
  - destruct (command c) as [cmd|]; [|apply IH].
    pose proof (run_exit_cleanup_removes (set_child 0 c) st w name) as Hrm.
    destruct (run_exit_cleanup (set_child 0 c) st w) as [w'' s].
    intros [= <- _]. by apply Hrm.
Qed.

(** What a duplication that returns has done to the files, the
    environment and the descriptors: one file more, under the name
    returned, one descriptor more, open on it, and nothing else changed. *)
Lemma copy_cache_returns (ccache : string) (w w' : world) (name new : string) :
  copy_cache ccache w = (Val (name, new), w') ->
  name = "/tmp/krb5cc_" +:+ (pretty (w_uid w) +:+ "_" +:+ w_suffix w) /\
  w_files w !! name = None /\
  is_Some (w_files w' !! name) /\
  (forall k : string, k <> name -> w_files w' !! k = w_files w !! k) /\
  w_env w' = w_env w /\
  w_fds w' = <[Daemon.lowest_free (w_fds w) := name]> (w_fds w).
Proof.
  intros Hrun.
  assert (Hfst : fst (copy_cache ccache w) = Val (name, new)) by (by rewrite Hrun).
  assert (Hsnd : snd (copy_cache ccache w) = w') by (by rewrite Hrun).
  clear Hrun. subst w'. revert Hfst.
  destruct w as [files fds env uid sfx mm live bad script lg].
  unfold copy_cache.
  repeat (run; rewrite ?mkstemp_name, ?residual_tmp, ?lookup_insert_eq; run;
          split_head).
  all: run.
  all: try discriminate.
  all: intros [= <- <-].
  all: split; [reflexivity|]; split; [assumption|].
  all: split; [by rewrite lookup_insert_eq|].
  all: split; [|split; reflexivity].
  all: intros k Hk.
  all: by rewrite !lookup_insert_ne, lookup_alter_ne, lookup_insert_ne by done.
Qed.

(** What [copy_cache] does to the files, for what follows. *)
Lemma copy_cache_files (ccache : string) (w w' : world) (name new : string) :
  copy_cache ccache w = (Val (name, new), w') ->
  name = "/tmp/krb5cc_" +:+ (pretty (w_uid w) +:+ "_" +:+ w_suffix w) /\
  w_files w !! name = None /\
  is_Some (w_files w' !! name).
Proof.
  intros Hrun. by apply copy_cache_returns in Hrun as (? & ? & ? & _).
Qed.

(** With a command on the command line, a [main] that gets to the
    framework has duplicated the cache: the configuration names the
    temporary cache and marks it for removal, and the file is there. *)
Lemma establish_cache_with_command (cfg cfg1 : config) (w w1 : world) :
  command cfg <> None ->
  establish_cache cfg w = (Val cfg1, w1) ->
  exists ccache w0 w0' name new,
    w_files w0 = w_files w /\ w_uid w0 = w_uid w /\ w_suffix w0 = w_suffix w /\
    copy_cache ccache w0 = (Val (name, new), w0') /\
    w_files w1 = w_files w0' /\
    cache cfg1 = Some name /\ clean_cache cfg1 = true.
Proof.
  intros Hcmd Hrun.
  assert (Hfst : fst (establish_cache cfg w) = Val cfg1) by (by rewrite Hrun).
  assert (Hsnd : snd (establish_cache cfg w) = w1) by (by rewrite Hrun).
  clear Hrun. subst w1. revert Hfst.
  destruct w as [files fds env uid sfx mm live bad script lg].
  unfold establish_cache.
  rewrite (bool_decide_eq_true_2 _ Hcmd).
  repeat (run; split_head).
  all: run; try discriminate.
  all: match goal with
       | |- context [copy_cache ?c ?W] =>
           destruct (copy_cache c W)
             as [[[name new]|e] [files' fds' env' uid' sfx' mm' live' bad' script' lg']]
             eqn:Hcopy
       end.
  all: run; try discriminate.
  all: cbn [cache clean_cache set_clean_cache set_cache].
  all: repeat (run; split_head).
  all: run; try discriminate.
  all: intros [= <-]; eexists _, _, _, name, new.
  all: split; [|split; [|split; [|split; [exact Hcopy|]]]]; try reflexivity.
  all: done.
Qed.

(** C3.  When a command is given and [main] gets to the framework, the
    cache the configuration names is the temporary file that [copy_cache]
    made, which was not there before; and whenever the run has ended,
    whether because an attempt called [exit_cleanup], because the error
    policy sent the scheduler to cleanup, or because the child exited,
    that file is gone. *)
Theorem temporary_cache_removed conv (opts : list (ascii * string))
    (args : list string) (w w1 w2 : world) (cfg : config) (pid : Z)
    (evs : list sched_event) (status : Z) :
  args <> [] ->
  main conv opts args w = (Val cfg, w1) ->
  run_framework cfg pid evs w1 = (w2, Some status) ->
  exists name,
    cache cfg = Some name /\
    clean_cache cfg = true /\
    w_files w !! name = None /\
    is_Some (w_files w1 !! name) /\
    w_files w2 !! name = None.
Proof.
  intros Hargs Hmain Hrun.
  rewrite main_after_parse in Hmain.
  destruct (parse_options conv opts config_zero w) as [[cfg0|e] wp] eqn:Hparse;
    [|done].
  apply parse_options_frame in Hparse as [n ->].
  destruct (check_consistency_spec (with_command args cfg0)
              (set_log (w_log w ++ repeat EvOpenlog n) w))
    as [[_ [msg Hc]]|[_ Hc]]; rewrite Hc in Hmain; [done|].
  apply establish_cache_with_command in Hmain
    as (ccache & w0 & w0' & name & new & Hf & Hu & Hs & Hcopy & Hf1 & Hcache & Hclean).
  2:{ unfold with_command. destruct args; [done|]. by cbn. }
  apply copy_cache_files in Hcopy as (Hname & Hfresh & Hthere).
  exists name. split; [done|]. split; [done|].
  rewrite Hf1. rewrite Hf in Hfresh. destruct w; cbn in *.
  split; [done|]. split; [done|].
  assert (Hres : residual name = name).
  { rewrite Hname. apply residual_tmp. }
  rewrite <- Hres. unfold run_framework in Hrun.
  eapply running_exit_removes; [| |exact Hrun];
    by destruct (command cfg).
Qed.


Lemma temporary_cache_removed_witness :
  exists name,
    cache Sample.started_config = Some name /\
    clean_cache Sample.started_config = true /\
    w_files Sample.world_alice !! name = None /\
    is_Some (w_files (snd Sample.started) !! name) /\
    w_files (fst Sample.finished) !! name = None.
Proof.
  apply (temporary_cache_removed (fun _ _ => 5) [("K"%char, "5")] ["sh"]
           Sample.world_alice (snd Sample.started) (fst Sample.finished)
           Sample.started_config 4242
           [Framework.Wake 0; Framework.ChildExit 2] 2).
  - discriminate.
  - vm_compute. reflexivity.
  - vm_compute. reflexivity.
Defined.

(** krenew sh, with KRB5CCNAME refused by [setenv] (the tenth call): [main]
    ends through [die], after [copy_cache] has made the temporary cache,
    and the file is still there. *)
Lemma temporary_cache_left_behind :
  fst (main (fun _ _ => 5) [] ["sh"]
         (Sample.world_scripted [0; 0; 0; 0; 0; 0; 0; 0; 0; 1]))
    = Stop (Die "cannot set KRB5CCNAME environment variable") /\
  w_files Sample.world_alice !! "/tmp/krb5cc_1000_a1b2c3" = None /\
  w_files (snd (main (fun _ _ => 5) [] ["sh"]
                  (Sample.world_scripted [0; 0; 0; 0; 0; 0; 0; 0; 0; 1])))
    !! "/tmp/krb5cc_1000_a1b2c3"
    = Some (mk_file mode_0600
              (Some (mk_ccache Sample.alice [mk_creds Sample.alice 0]))).
Proof. vm_compute. repeat split. Qed.

(** *** Further properties of [renew] *)

(** An attempt touches nothing but the configured cache: descriptors and
    environment are as before, and so is every file other than the one the
    cache name stands for. *)
Theorem renew_touches_only_cache (c : config) (st : Z) (w : world) :
  w_fds (snd (renew c st w)) = w_fds w /\
  w_env (snd (renew c st w)) = w_env w /\
  forall k : string,
    (forall name, cache c = Some name -> k <> residual name) ->
    w_files (snd (renew c st w)) !! k = w_files w !! k.
Proof.
  destruct w as [files fds env uid sfx mm live bad script lg].
  unfold renew. run.
  destruct (negb (st =? 0) && negb (st =? KRB5KRB_AP_ERR_TKT_EXPIRED)).
  { destruct (st =? KRB5KDC_ERR_KEY_EXP), (ignore_errors c); run; done. }
  repeat (run; rewrite ?lookup_insert_eq; run; split_head).
  all: run.
  all: split; [reflexivity|]; split; [reflexivity|]; intros k Hk; try reflexivity.
  all: specialize (Hk _ eq_refl).
  all: by rewrite !lookup_insert_ne by done.
Qed.

Lemma renew_touches_only_cache_witness :
  w_fds (snd (renew Sample.config_alice 0 Sample.world_alice))
    = w_fds Sample.world_alice /\
  w_env (snd (renew Sample.config_alice 0 Sample.world_alice))
    = w_env Sample.world_alice /\
  forall k : string,
    (forall name, cache Sample.config_alice = Some name -> k <> residual name) ->
    w_files (snd (renew Sample.config_alice 0 Sample.world_alice)) !! k
      = w_files Sample.world_alice !! k.
Proof. exact (renew_touches_only_cache Sample.config_alice 0 Sample.world_alice). Defined.

(** Whatever an attempt does and however it ends, the cache keeps its
    principal; a cache that had none, or did not exist, still has none. *)
Theorem renew_preserves_principal (c : config) (st : Z) (w : world)
    (name : string) :
  cache c = Some name ->
  cc_principal <$> cache_of (snd (renew c st w)) (residual name)
    = cc_principal <$> cache_of w (residual name).
Proof.
  intros Hname.
  destruct w as [files fds env uid sfx mm live bad script lg].
  unfold renew. rewrite Hname. run.
  destruct (negb (st =? 0) && negb (st =? KRB5KRB_AP_ERR_TKT_EXPIRED)).
  { destruct (st =? KRB5KDC_ERR_KEY_EXP), (ignore_errors c); run; done. }
  repeat (run; rewrite ?lookup_insert_eq; run; split_head).
  all: run; try reflexivity.
  all: unfold cache_of in *; cbn [w_files] in *.
  all: rewrite lookup_insert_eq.
  all: match goal with
       | H : _ ≫= _ = Some ?d |- _ = cc_principal <$> _ => by rewrite H
       end.
Qed.

Lemma renew_preserves_principal_witness :
  cc_principal <$>
    cache_of (snd (renew Sample.config_alice 0 (Sample.world_scripted [0; 0; 0; 0; 9])))
             (residual "/tmp/krb5cc_1000")
  = cc_principal <$>
      cache_of (Sample.world_scripted [0; 0; 0; 0; 9]) (residual "/tmp/krb5cc_1000").
Proof.
  exact (renew_preserves_principal Sample.config_alice 0
           (Sample.world_scripted [0; 0; 0; 0; 9]) "/tmp/krb5cc_1000" eq_refl).
Defined.



(** When an attempt ends the process and when it returns. *)
Lemma renew_stop_or_return (c : config) (st : Z) (w : world) :
  match fst (renew c st w) with
  | Stop _ =>
      ignore_errors c = false /\
      (negb (st =? 0) && negb (st =? KRB5KRB_AP_ERR_TKT_EXPIRED) = true \/
       cache_failure c w <> None)
  | Val _ =>
      ignore_errors c = true \/
      (negb (st =? 0) && negb (st =? KRB5KRB_AP_ERR_TKT_EXPIRED) = false /\
       cache_failure c w = None)
  end.
Proof.
  destruct w as [files fds env uid sfx mm live bad script lg].
  unfold renew, cache_failure.
  destruct (negb (st =? 0) && negb (st =? KRB5KRB_AP_ERR_TKT_EXPIRED)) eqn:Hprior.
  { destruct (st =? KRB5KDC_ERR_KEY_EXP), (ignore_errors c); run; auto. }
  repeat (run; rewrite ?lookup_insert_eq; run; split_head).
  all: run.
  all: destruct (ignore_errors c); cbn [negb] in *; try discriminate; auto.
Qed.

(** An attempt ends the process itself in exactly two situations, and only
    without ignore-errors: the carried-over status is neither 0 nor
    "ticket expired", or the cache cannot be resolved or has no principal.
    A failure to renew, to reinitialize or to store always comes back to the
    caller as a return value. *)
Theorem renew_ends_process_iff (c : config) (st : Z) (w : world) :
  (exists e, fst (renew c st w) = Stop e) <->
  ignore_errors c = false /\
  ((st <> 0 /\ st <> KRB5KRB_AP_ERR_TKT_EXPIRED) \/ cache_failure c w <> None).
Proof.
  pose proof (renew_stop_or_return c st w) as H.
  assert (Hprior : negb (st =? 0) && negb (st =? KRB5KRB_AP_ERR_TKT_EXPIRED) = true
                   <-> st <> 0 /\ st <> KRB5KRB_AP_ERR_TKT_EXPIRED).
  { rewrite andb_true_iff, !negb_true_iff, !Z.eqb_neq. done. }
  destruct (fst (renew c st w)) as [code|e].
  - split; [by intros [e [=]]|].
    intros [Hign Hwhy]. destruct H as [H|[Hp Hc]]; [congruence|].
    destruct Hwhy as [Hwhy|Hwhy]; [|done].
    apply Hprior in Hwhy. congruence.
  - split; [|by exists e].
    intros _. destruct H as [Hign [Hp|Hc]]; split; auto.
    left. by apply Hprior.
Qed.

(** *** Further properties of [copy_cache] *)

(** Run [copy_cache] up to its result. *)
Ltac run_copy_cache :=
  unfold copy_cache;
  repeat (run; rewrite ?mkstemp_name, ?residual_tmp, ?lookup_insert_eq; run;
          split_head);
  run.

(** What a duplication that returns does to the environment and to the
    resources held, for what follows. *)
Lemma copy_cache_state (ccache : string) (w w' : world) (name new : string) :
  copy_cache ccache w = (Val (name, new), w') ->
  RCache ccache ∈ w_live w ->
  w_env w' = w_env w /\
  w_live w' = RCache new :: remove_first (RCache ccache) (w_live w) /\
  w_bad_release w' = w_bad_release w.
Proof.
  intros Hrun Hlive.
  assert (Hfst : fst (copy_cache ccache w) = Val (name, new)) by (by rewrite Hrun).
  assert (Hsnd : snd (copy_cache ccache w) = w') by (by rewrite Hrun).
  clear Hrun. subst w'. revert Hfst.
  destruct w as [files fds env uid sfx mm live bad script lg]. cbn [w_live] in Hlive.
  run_copy_cache.
  all: try discriminate.
  all: intros [= <- <-].
  all: unfold cache_of in *; cbn [w_files] in *.
  all: repeat match goal with
         | H : alter _ _ _ !! _ ≫= _ = Some _ |- _ =>
             apply cache_of_after_mkstemp in H as [? _]
         | H : option_bind _ _ _ (alter _ _ _ !! _) = Some _ |- _ =>
             apply cache_of_after_mkstemp in H as [? _]
         end.
  - rewrite decide_False by congruence. done.
  - exfalso. match goal with H : _ ∉ _ :: _ |- _ => apply H end.
    by apply list_elem_of_further.
Qed.



(** The descriptor that [mkstemp] returned is never closed: after a
    duplication that returns, the descriptor table is the one of before
    with one more descriptor, open on the temporary file. *)
Theorem copy_cache_leaves_descriptor_open (ccache : string) (w w' : world)
    (name new : string) :
  copy_cache ccache w = (Val (name, new), w') ->
  exists fd, w_fds w !! fd = None /\ w_fds w' = <[fd := name]> (w_fds w).
Proof.
  intros Hrun. apply copy_cache_returns in Hrun as (_ & _ & _ & _ & _ & Hfds).
  exists (Daemon.lowest_free (w_fds w)).
  split; [apply DaemonFacts.lowest_free_free | exact Hfds].
Qed.

Lemma copy_cache_leaves_descriptor_open_witness :
  exists fd,
    w_fds Sample.world_alice !! fd = None /\
    w_fds (snd (copy_cache "/tmp/krb5cc_1000" Sample.world_alice))
      = <[fd := "/tmp/krb5cc_1000_a1b2c3"]> (w_fds Sample.world_alice).
Proof.
  apply (copy_cache_leaves_descriptor_open "/tmp/krb5cc_1000" Sample.world_alice
           (snd (copy_cache "/tmp/krb5cc_1000" Sample.world_alice))
           "/tmp/krb5cc_1000_a1b2c3" "/tmp/krb5cc_1000_a1b2c3").
  vm_compute. reflexivity.
Defined.

(** A duplication that does not return has stopped through [die].  If it was
    the creation of the temporary file that failed, no file has changed; in
    every other case the temporary file, which did not exist before, has
    been created and is still there, as [copy_cache] removes nothing. *)
Theorem copy_cache_failure_leaves_file (ccache : string) (w w' : world)
    (e : stop) :
  copy_cache ccache w = (Stop e, w') ->
  exists msg,
    e = Die msg /\
    ((msg = "cannot create ticket cache file" /\ w_files w' = w_files w) \/
     (msg <> "cannot create ticket cache file" /\
      w_files w !! ("/tmp/krb5cc_" +:+ pretty (w_uid w) +:+ "_" +:+ w_suffix w)
        = None /\
      is_Some (w_files w'
                 !! ("/tmp/krb5cc_" +:+ pretty (w_uid w) +:+ "_" +:+ w_suffix w)))).
Proof.
  intros Hrun.
  assert (Hfst : fst (copy_cache ccache w) = Stop e) by (by rewrite Hrun).
  assert (Hsnd : snd (copy_cache ccache w) = w') by (by rewrite Hrun).
  clear Hrun. subst w'. revert Hfst.
  pose proof (DaemonFacts.lowest_free_nonneg (w_fds w)) as Hnn.
  destruct w as [files fds env uid sfx mm live bad script lg]. cbn [w_fds] in Hnn.
  run_copy_cache.
  all: try discriminate.
  all: intros [= <-]; eexists; split; [reflexivity|].
  all: try (left; split; [reflexivity | reflexivity]).
  all: try match goal with
           | H : (Daemon.lowest_free _ <? 0) = true |- _ =>
               apply Z.ltb_lt in H; lia
           end.
  all: right; split; [discriminate|]; split; [reflexivity|].
  all: rewrite ?lookup_insert_eq, ?lookup_alter_eq, ?lookup_insert_eq; by eexists.
Qed.

Lemma copy_cache_failure_leaves_file_witness :
  exists msg,
    Die "error getting principal from old cache" = Die msg /\
    ((msg = "cannot create ticket cache file" /\
      w_files (snd (copy_cache "/nonexistent" Sample.world_alice))
        = w_files Sample.world_alice) \/
     (msg <> "cannot create ticket cache file" /\
      w_files Sample.world_alice
        !! ("/tmp/krb5cc_" +:+ pretty (w_uid Sample.world_alice) +:+ "_"
              +:+ w_suffix Sample.world_alice) = None /\
      is_Some (w_files (snd (copy_cache "/nonexistent" Sample.world_alice))
                 !! ("/tmp/krb5cc_" +:+ pretty (w_uid Sample.world_alice) +:+ "_"
                       +:+ w_suffix Sample.world_alice)))).
Proof.
  apply (copy_cache_failure_leaves_file "/nonexistent" Sample.world_alice).
  vm_compute. reflexivity.
Defined.

(** A duplication that returns has exchanged the handles: the source
    handle that was open is closed, the handle of the new cache is open,
    the principal read in between has been freed, and nothing was released
    that was not held. *)
Theorem copy_cache_swaps_handles (ccache : string) (w w' : world)
    (name new : string) :
  copy_cache ccache w = (Val (name, new), w') ->
  RCache ccache ∈ w_live w ->
  w_live w' = RCache new :: remove_first (RCache ccache) (w_live w) /\
  w_bad_release w' = w_bad_release w.
Proof.
  intros Hrun Hlive.
  by destruct (copy_cache_state _ _ _ _ _ Hrun Hlive) as (_ & ? & ?).
Qed.

Lemma copy_cache_swaps_handles_witness :
  w_live (snd (copy_cache "/tmp/krb5cc_1000"
                 (set_live [RCache "/tmp/krb5cc_1000"] Sample.world_alice)))
    = [RCache "/tmp/krb5cc_1000_a1b2c3"] /\
  w_bad_release (snd (copy_cache "/tmp/krb5cc_1000"
                        (set_live [RCache "/tmp/krb5cc_1000"] Sample.world_alice)))
    = [].
Proof.
  apply (copy_cache_swaps_handles "/tmp/krb5cc_1000"
           (set_live [RCache "/tmp/krb5cc_1000"] Sample.world_alice)
           (snd (copy_cache "/tmp/krb5cc_1000"
                   (set_live [RCache "/tmp/krb5cc_1000"] Sample.world_alice)))
           "/tmp/krb5cc_1000_a1b2c3" "/tmp/krb5cc_1000_a1b2c3").
  - vm_compute. reflexivity.
  - apply list_elem_of_here.
Defined.

(** *** Further properties of [main] *)

(** What the set-up hands over when it returns: a cache name in any case,
    the command and the child as they were, the mark for removal exactly
    when there is a command, all handles closed again, and the name of the
    cache exported unless it is the default cache used in place. *)
Lemma establish_cache_result (cfg cfg1 : config) (w w1 : world) :
  establish_cache cfg w = (Val cfg1, w1) ->
  cache cfg1 <> None /\
  command cfg1 = command cfg /\
  child cfg1 = child cfg /\
  clean_cache cfg1 = clean_cache cfg || bool_decide (command cfg <> None) /\
  w_live w1 = w_live w /\
  w_bad_release w1 = w_bad_release w /\
  w_env w1 =
    (if bool_decide (command cfg <> None) || bool_decide (cache cfg <> None)
     then <["KRB5CCNAME" := default "" (cache cfg1)]> (w_env w)
     else w_env w).
Proof.
  intros Hrun.
  assert (Hfst : fst (establish_cache cfg w) = Val cfg1) by (by rewrite Hrun).
  assert (Hsnd : snd (establish_cache cfg w) = w1) by (by rewrite Hrun).
  clear Hrun. subst w1. revert Hfst.
  destruct w as [files fds env uid sfx mm live bad script lg].
  unfold establish_cache.
  destruct (bool_decide (command cfg <> None)) eqn:Hcmd.
  - repeat (run; split_head).
    all: run; try discriminate.
    all: match goal with
         | |- context [copy_cache ?c ?W] =>
             pose proof (copy_cache_state c W) as Hstate;
             destruct (copy_cache c W)
               as [[[name new]|e] [files' fds' env' uid' sfx' mm' live' bad' script' lg']]
         end.
    all: run; try discriminate.
    all: specialize (Hstate _ _ _ eq_refl ltac:(apply list_elem_of_here)).
    all: cbn [w_env w_live w_bad_release remove_first] in Hstate.
    all: rewrite decide_True in Hstate by reflexivity.
    all: destruct Hstate as (-> & -> & ->).
    all: cbn [cache clean_cache command child set_clean_cache set_cache].
    all: repeat (run; split_head).
    all: run; try discriminate.
    all: intros [= <-].
    all: cbn [cache clean_cache command child set_clean_cache set_cache orb default].
    all: by rewrite orb_true_r.
  - repeat (run; split_head).
    all: run; try discriminate.
    all: intros [= <-].
    all: cbn [cache clean_cache command child set_clean_cache set_cache orb default].
    all: rewrite orb_false_r.
    all: repeat match goal with
           | H : cache _ = _ |- _ => rewrite H
           end.
    all: by repeat split.
Qed.

(** One round of the option loop: the flags and the file names. *)
Lemma parse_option_fields conv (o : ascii) (arg : string) (cfg cfg1 : config)
    (w w1 : world) :
  parse_option conv o arg cfg w = (Val cfg1, w1) ->
  always_renew cfg1 = always_renew cfg || Ascii.eqb o "a" /\
  background cfg1 = background cfg || Ascii.eqb o "b" /\
  ignore_errors cfg1 = ignore_errors cfg || Ascii.eqb o "i" /\
  do_aklog cfg1 = do_aklog cfg || Ascii.eqb o "t" /\
  verbose cfg1 = verbose cfg || Ascii.eqb o "v" /\
  exit_errors cfg1 = exit_errors cfg || Ascii.eqb o "x" /\
  signal_child (private cfg1) = signal_child (private cfg) || Ascii.eqb o "s" /\
  cache cfg1 = (if Ascii.eqb o "k" then Some arg else cache cfg) /\
  childfile cfg1 = (if Ascii.eqb o "c" then Some arg else childfile cfg) /\
  pidfile cfg1 = (if Ascii.eqb o "p" then Some arg else pidfile cfg) /\
  command cfg1 = command cfg /\
  clean_cache cfg1 = clean_cache cfg /\
  child cfg1 = child cfg.
Proof.
  unfold parse_option.
  repeat match goal with
         | |- context [Ascii.eqb o ?ch] =>
             lazymatch goal with
             | H : Ascii.eqb o ch = _ |- _ => fail
             | _ => idtac
             end;
             destruct (Ascii.eqb o ch) eqn:?;
             [ match goal with
               | H : Ascii.eqb o ch = true |- _ =>
                   apply Ascii.eqb_eq in H; subst o
               end
             | ]
         end;
    cbn [Ascii.eqb Bool.eqb];
    try match goal with
        | |- context [if ?b then die _ else _] => destruct b
        end;
    try discriminate;
    intros [= <- <-];
    cbn [always_renew background ignore_errors do_aklog verbose exit_errors
         private signal_child cache childfile pidfile command clean_cache child
         set_always_renew set_background set_childfile
         set_ignore_errors set_cache set_pidfile set_private set_do_aklog
         set_verbose set_exit_errors set_happy_ticket set_keep_ticket];
    rewrite ?orb_false_r, ?orb_true_r; by repeat split.
Qed.

Lemma flag_step (o ch : ascii) (rest : list ascii) (v0 v1 v2 : bool) :
  v1 = v0 || Ascii.eqb o ch ->
  v2 = v1 || bool_decide (ch ∈ rest) ->
  v2 = v0 || bool_decide (ch ∈ o :: rest).
Proof.
  intros -> ->. rewrite <- orb_assoc. f_equal.
  destruct (Ascii.eqb o ch) eqn:E.
  - apply Ascii.eqb_eq in E as ->. cbn [orb]. symmetry.
    apply bool_decide_eq_true_2, list_elem_of_here.
  - apply Ascii.eqb_neq in E. cbn [orb].
    apply bool_decide_ext. rewrite elem_of_cons.
    split; [by right | intros [?|?]; congruence].
Qed.

Lemma parse_options_fields conv (opts : list (ascii * string))
    (cfg cfg1 : config) (w w1 : world) :
  parse_options conv opts cfg w = (Val cfg1, w1) ->
  always_renew cfg1 = always_renew cfg || bool_decide ("a"%char ∈ opts.*1) /\
  background cfg1 = background cfg || bool_decide ("b"%char ∈ opts.*1) /\
  ignore_errors cfg1 = ignore_errors cfg || bool_decide ("i"%char ∈ opts.*1) /\
  do_aklog cfg1 = do_aklog cfg || bool_decide ("t"%char ∈ opts.*1) /\
  verbose cfg1 = verbose cfg || bool_decide ("v"%char ∈ opts.*1) /\
  exit_errors cfg1 = exit_errors cfg || bool_decide ("x"%char ∈ opts.*1) /\
  signal_child (private cfg1)
    = signal_child (private cfg) || bool_decide ("s"%char ∈ opts.*1) /\
  cache cfg1 = last_arg "k" opts (cache cfg) /\
  childfile cfg1 = last_arg "c" opts (childfile cfg) /\
  pidfile cfg1 = last_arg "p" opts (pidfile cfg) /\
  command cfg1 = command cfg /\
  clean_cache cfg1 = clean_cache cfg /\
  child cfg1 = child cfg.
Proof.
  revert cfg w. induction opts as [|[o arg] opts IH]; intros cfg w.
  - intros [= <- <-]. cbn. rewrite !orb_false_r. by repeat split.
  - rewrite parse_options_cons.
    destruct (parse_option conv o arg cfg w) as [[cfg2|e] w2] eqn:Hstep; [|done].
    apply parse_option_fields in Hstep
      as (Ha & Hb & Hi & Ht & Hv & Hx & Hs & Hk & Hc & Hp & Hcmd & Hcl & Hch).
    intros Hrest. apply IH in Hrest
      as (Ia & Ib & Ii & It & Iv & Ix & Is & Ik & Ic & Ip & Icmd & Icl & Ich).
    cbn [fmap list_fmap fst last_arg].
    rewrite <- Hk, <- Hc, <- Hp.
    repeat split; try (eapply flag_step; eassumption); congruence.
Qed.

(** The configuration read back from the options.  After a parse that
    succeeds, each flag is set exactly when its letter occurs among the
    options, each file name is the argument of the last option that names
    it (none if there is none), and the fields that only the rest of [main]
    and the framework set are still zero. *)
Theorem parse_options_reads_back conv (opts : list (ascii * string))
    (cfg : config) (w w1 : world) :
  parse_options conv opts config_zero w = (Val cfg, w1) ->
  always_renew cfg = bool_decide ("a"%char ∈ opts.*1) /\
  background cfg = bool_decide ("b"%char ∈ opts.*1) /\
  ignore_errors cfg = bool_decide ("i"%char ∈ opts.*1) /\
  do_aklog cfg = bool_decide ("t"%char ∈ opts.*1) /\
  verbose cfg = bool_decide ("v"%char ∈ opts.*1) /\
  exit_errors cfg = bool_decide ("x"%char ∈ opts.*1) /\
  signal_child (private cfg) = bool_decide ("s"%char ∈ opts.*1) /\
  cache cfg = last_arg "k" opts None /\
  childfile cfg = last_arg "c" opts None /\
  pidfile cfg = last_arg "p" opts None /\
  command cfg = None /\
  clean_cache cfg = false /\
  child cfg = 0.
Proof. intros H. by apply parse_options_fields in H. Qed.

Lemma parse_options_reads_back_witness :
  always_renew (set_cache (Some "/tmp/two") (set_always_renew true config_zero))
    = bool_decide ("a"%char ∈ [("k"%char, "/tmp/one"); ("a"%char, ""); ("k"%char, "/tmp/two")].*1) /\
  cache (set_cache (Some "/tmp/two") (set_always_renew true config_zero))
    = last_arg "k" [("k"%char, "/tmp/one"); ("a"%char, ""); ("k"%char, "/tmp/two")] None.
Proof.
  pose proof (parse_options_reads_back (fun _ _ => 0)
                [("k"%char, "/tmp/one"); ("a"%char, ""); ("k"%char, "/tmp/two")]
                (set_cache (Some "/tmp/two") (set_always_renew true config_zero))
                Sample.world_alice Sample.world_alice eq_refl)
    as (Ha & _ & _ & _ & _ & _ & _ & Hk & _).
  split; [exact Ha | exact Hk].
Defined.

Lemma last_arg_some (ch : ascii) (opts : list (ascii * string))
    (init : option string) :
  bool_decide (last_arg ch opts init <> None)
    = bool_decide (init <> None) || bool_decide (ch ∈ opts.*1).
Proof.
  revert init. induction opts as [|[o arg] opts IH]; intros init.
  - cbn. by rewrite orb_false_r.
  - cbn [last_arg fmap list_fmap fst]. rewrite IH.
    destruct (Ascii.eqb o ch) eqn:E.
    + apply Ascii.eqb_eq in E as ->.
      rewrite (bool_decide_eq_true_2 (ch ∈ ch :: opts.*1)) by apply list_elem_of_here.
      by rewrite orb_true_r.
    + apply Ascii.eqb_neq in E. f_equal.
      apply bool_decide_ext. rewrite elem_of_cons.
      split; [by right | intros [?|?]; [congruence|done]].
Qed.

(** Everything of [main] before the set-up of the cache: the options are
    parsed, the command is attached and the configuration is checked; the
    world has only seen calls of [openlog]. *)
Lemma main_before_cache conv (opts : list (ascii * string)) (args : list string)
    (w w1 : world) (r : result config) :
  main conv opts args w = (r, w1) ->
  (exists e, r = Stop e /\ openlog_only w w1) \/
  (exists cfg0 wp,
     parse_options conv opts config_zero w = (Val cfg0, wp) /\
     openlog_only w wp /\
     establish_cache (with_command args cfg0) wp = (r, w1)).
Proof.
  rewrite main_after_parse.
  destruct (parse_options conv opts config_zero w) as [[cfg0|e] wp] eqn:Hparse.
  - pose proof (parse_options_frame _ _ _ _ _ _ Hparse) as Hframe.
    destruct (check_consistency_spec (with_command args cfg0) wp)
      as [[_ [msg Hc]]|[_ Hc]]; rewrite Hc.
    + intros [= <- <-]. left. by exists (Die msg).
    + intros Hrun. right. by exists cfg0, wp.
  - intros [= <- <-]. left. exists e. split; [done|].
    by eapply parse_options_frame.
Qed.

(** What [main] hands to the framework.  The configuration always names a
    cache; the command is what followed the options; the cache is marked
    for removal exactly when there is a command; no child is recorded yet.
    KRB5CCNAME is set to the name of the cache when there is a command or
    a -k option, and the environment is untouched otherwise. *)
Theorem main_hands_over conv (opts : list (ascii * string)) (args : list string)
    (w w1 : world) (cfg : config) :
  main conv opts args w = (Val cfg, w1) ->
  cache cfg <> None /\
  command cfg = (if (0 <? length args)%nat then Some args else None) /\
  clean_cache cfg = (0 <? length args)%nat /\
  child cfg = 0 /\
  w_env w1 =
    (if (0 <? length args)%nat || bool_decide ("k"%char ∈ opts.*1)
     then <["KRB5CCNAME" := default "" (cache cfg)]> (w_env w)
     else w_env w).
Proof.
  intros Hmain.
  apply main_before_cache in Hmain as [(e & [=] & _)|(cfg0 & wp & Hparse & Hframe & Hrun)].
  apply parse_options_fields in Hparse
    as (_ & _ & _ & _ & _ & _ & _ & Hk & _ & _ & Hcmd & Hcl & Hch).
  apply establish_cache_result in Hrun
    as (Hcache & Hcmd1 & Hch1 & Hcl1 & _ & _ & Henv).
  destruct Hframe as [n ->].
  assert (Hwc : command (with_command args cfg0)
                = if (0 <? length args)%nat then Some args else None).
  { unfold with_command. by destruct (0 <? length args)%nat. }
  assert (Hwk : cache (with_command args cfg0) = cache cfg0).
  { unfold with_command. by destruct (0 <? length args)%nat. }
  assert (Hwl : clean_cache (with_command args cfg0) = false).
  { unfold with_command. by destruct (0 <? length args)%nat. }
  assert (Hwh : child (with_command args cfg0) = 0).
  { unfold with_command. by destruct (0 <? length args)%nat. }
  assert (Hb : bool_decide (command (with_command args cfg0) <> None)
               = (0 <? length args)%nat).
  { rewrite Hwc. by destruct (0 <? length args)%nat. }
  rewrite Hb, Hwl in Hcl1. rewrite Hb, Hwk, Hk, last_arg_some in Henv.
  rewrite Hcmd1, Hwc, Hch1, Hwh, Hcl1, Henv.
  destruct w; by repeat split.
Qed.

Lemma main_hands_over_witness :
  cache Sample.started_config <> None /\
  command Sample.started_config = Some ["sh"] /\
  clean_cache Sample.started_config = true /\
  child Sample.started_config = 0 /\
  w_env (snd Sample.started)
    = <["KRB5CCNAME" := default "" (cache Sample.started_config)]>
        (w_env Sample.world_alice).
Proof.
  apply (main_hands_over (fun _ _ => 5) [("K"%char, "5")] ["sh"]
           Sample.world_alice (snd Sample.started) Sample.started_config).
  vm_compute. reflexivity.
Defined.

(** A [main] that gets to the framework holds no handle of the library any
    more: every cache handle it opened, the one of the duplicate included,
    and the principal read for the duplication have been given back, each
    once. *)
Theorem main_closes_handles conv (opts : list (ascii * string))
    (args : list string) (w w1 : world) (cfg : config) :
  main conv opts args w = (Val cfg, w1) ->
  w_live w1 = w_live w /\ w_bad_release w1 = w_bad_release w.
Proof.
  intros Hmain.
  apply main_before_cache in Hmain as [(e & [=] & _)|(cfg0 & wp & _ & Hframe & Hrun)].
  apply establish_cache_result in Hrun as (_ & _ & _ & _ & Hlive & Hbad & _).
  destruct Hframe as [n ->]. rewrite Hlive, Hbad. by destruct w.
Qed.

Lemma main_closes_handles_witness :
  w_live (snd Sample.started) = w_live Sample.world_alice /\
  w_bad_release (snd Sample.started) = w_bad_release Sample.world_alice.
Proof.
  apply (main_closes_handles (fun _ _ => 5) [("K"%char, "5")] ["sh"]
           Sample.world_alice (snd Sample.started) Sample.started_config).
  vm_compute. reflexivity.
Defined.

(** Without a command the set-up of the cache writes no file and opens no
    descriptor, whatever its outcome. *)
Lemma establish_cache_no_command (cfg : config) (w : world) :
  command cfg = None ->
  w_files (snd (establish_cache cfg w)) = w_files w /\
  w_fds (snd (establish_cache cfg w)) = w_fds w.
Proof.
  intros Hcmd. destruct w as [files fds env uid sfx mm live bad script lg].
  unfold establish_cache.
  rewrite (bool_decide_eq_false_2 (command cfg <> None))
    by (rewrite Hcmd; intros H; by apply H).
  repeat (run; split_head).
  all: run; done.
Qed.

(** An option the loop has no case for ends the process with the usage
    message and status 1, and -h ends it with status 0.  The options after
    it and the command are not looked at, and the world is as the options
    before it left it. *)
Theorem main_usage conv (pre rest : list (ascii * string)) (o : ascii)
    (arg : string) (args : list string) (w wp : world) (cfg : config) :
  parse_options conv pre config_zero w = (Val cfg, wp) ->
  o ∉ handled ->
  main conv (pre ++ (o, arg) :: rest) args w
    = (Stop (Usage (if Ascii.eqb o "h" then 0 else 1)), wp).
Proof.
  intros Hpre Hnot.
  assert (Hne : forall ch, ch ∈ handled -> Ascii.eqb o ch = false).
  { intros ch Hin. apply Ascii.eqb_neq. by intros ->. }
  rewrite main_after_parse, parse_options_app, Hpre, parse_options_cons.
  unfold parse_option. cbv zeta.
  rewrite (Hne "a"%char), (Hne "b"%char), (Hne "c"%char), (Hne "i"%char),
    (Hne "k"%char), (Hne "p"%char), (Hne "s"%char), (Hne "t"%char),
    (Hne "v"%char), (Hne "x"%char), (Hne "H"%char), (Hne "K"%char),
    (Hne "L"%char) by (cbn; is_live).
  by destruct (Ascii.eqb o "h").
Qed.

Lemma main_usage_witness :
  main (fun _ _ => 5) ([("v"%char, "")] ++ ("q"%char, "") :: [("K"%char, "0")])
    ["sh"] Sample.world_alice
  = (Stop (Usage 1), Sample.world_alice).
Proof.
  apply (main_usage (fun _ _ => 5) [("v"%char, "")] [("K"%char, "0")] "q"%char ""
           ["sh"] Sample.world_alice Sample.world_alice
           (set_verbose true config_zero)).
  - reflexivity.
  - vm_compute. intros H. repeat (apply elem_of_cons in H as [H|H]; [discriminate H|]).
    by apply elem_of_nil in H.
Defined.

(** Started without a command, [main] writes no file and opens no
    descriptor, whether it gets to the framework or ends the process. *)
Theorem main_without_command_keeps_files conv (opts : list (ascii * string))
    (args : list string) (w w1 : world) (r : result config) :
  args = [] ->
  main conv opts args w = (r, w1) ->
  w_files w1 = w_files w /\ w_fds w1 = w_fds w.
Proof.
  intros -> Hmain.
  apply main_before_cache in Hmain
    as [(e & _ & [n ->])|(cfg0 & wp & Hparse & [n ->] & Hrun)];
    [by destruct w|].
  apply parse_options_fields in Hparse
    as (_ & _ & _ & _ & _ & _ & _ & _ & _ & _ & Hcmd & _).
  assert (Hnone : command (with_command [] cfg0) = None) by exact Hcmd.
  pose proof (establish_cache_no_command _
                (set_log (w_log w ++ repeat EvOpenlog n) w) Hnone) as Hkeep.
  rewrite Hrun in Hkeep. cbn [snd] in Hkeep. by destruct w.
Qed.

Lemma main_without_command_keeps_files_witness :
  w_files (snd (main (fun _ _ => 5) [("K"%char, "5")] [] Sample.world_alice))
    = w_files Sample.world_alice /\
  w_fds (snd (main (fun _ _ => 5) [("K"%char, "5")] [] Sample.world_alice))
    = w_fds Sample.world_alice.
Proof.
  apply (main_without_command_keeps_files (fun _ _ => 5) [("K"%char, "5")] []
           Sample.world_alice _
           (fst (main (fun _ _ => 5) [("K"%char, "5")] [] Sample.world_alice))).
  - reflexivity.
  - apply surjective_pairing.
Defined.

End KrenewFacts.
